(** * Restaurant real-estate profitability calculator

    Shallow embedding of the computation core of the React component [App]
    (src/src/App.jsx, and the earlier copy of the same component kept in the
    repository): the effect callback [calculateMetrics], the classifier
    [getBenchmarkStatus] and the input filter of [InputField].

    Numbers.  The code computes with JavaScript numbers, which are binary64
    floating-point values.  Module [B64] embeds the code on the primitive
    binary64 type [float]: its [parseFloat] rounds the decimal value of the
    text to the nearest double, and [*], [/], [<], [<=] are the IEEE 754
    operations.  What the code stores is stated on [B64].

    The type [number] carries the same values before rounding: [NaN], the two
    infinities, or a finite value as an exact rational; every double is one
    of these, and comparisons of doubles are comparisons of their values.  It
    is used for the classifier, which only compares, for the statements that
    do not depend on arithmetic, and for the statements that are made in
    exact arithmetic and say so. *)

From Stdlib Require Import Bool Ascii String List ZArith QArith Qpower Lia Lqa.
From Stdlib Require Import Floats.
From Stdlib Require Uint63.
Import ListNotations.

Local Open Scope string_scope.
Local Open Scope Q_scope.

(** ** JavaScript numbers *)

Inductive number : Type :=
| NaN : number
| Inf (negative : bool) : number
| Fin (q : Q) : number.

Definition Qltb (a b : Q) : bool := negb (Qle_bool b a).

Definition Qneg (q : Q) : bool := Qltb q 0.

Module Num.

(** [Number.isNaN] / the global [isNaN] on a value that is already a number. *)
Definition isNaN (x : number) : bool :=
  match x with NaN => true | _ => false end.

Definition isFinite (x : number) : bool :=
  match x with Fin _ => true | _ => false end.

(** The value of [x * y] before rounding: the exact product of finite values
    (the code rounds it to binary64, see [B64]). *)
Definition mul (x y : number) : number :=
  match x, y with
  | NaN, _ | _, NaN => NaN
  | Inf s, Inf t => Inf (xorb s t)
  | Inf s, Fin q | Fin q, Inf s =>
      if Qeq_bool q 0 then NaN else Inf (xorb s (Qneg q))
  | Fin a, Fin b => Fin (a * b)
  end.

(** The value of [x / y] before rounding: the exact quotient of finite
    values (the code rounds it to binary64, see [B64]); a finite value divided
    by zero is an infinity (or [NaN] for [0 / 0]), as in IEEE 754 with the
    zero taken positive. *)
Definition div (x y : number) : number :=
  match x, y with
  | NaN, _ | _, NaN => NaN
  | Inf _, Inf _ => NaN
  | Inf s, Fin q => Inf (xorb s (Qneg q))
  | Fin _, Inf _ => Fin 0
  | Fin a, Fin b =>
      if Qeq_bool b 0
      then (if Qeq_bool a 0 then NaN else Inf (Qneg a))
      else Fin (a / b)
  end.

(** [x < y]; any comparison with [NaN] is false. *)
Definition ltb (x y : number) : bool :=
  match x, y with
  | NaN, _ | _, NaN => false
  | Inf s, Inf t => s && negb t
  | Inf s, Fin _ => s
  | Fin _, Inf t => negb t
  | Fin a, Fin b => Qltb a b
  end.

(** [x <= y] *)
Definition leb (x y : number) : bool :=
  match x, y with
  | NaN, _ | _, NaN => false
  | Inf s, Inf t => s || negb t
  | Inf s, Fin _ => s
  | Fin _, Inf t => negb t
  | Fin a, Fin b => Qle_bool a b
  end.

(** [x > y] is [y < x]. *)
Definition gtb (x y : number) : bool := ltb y x.

End Num.

Declare Scope js_scope.
Delimit Scope js_scope with js.
Bind Scope js_scope with number.
Infix "*" := Num.mul : js_scope.
Infix "/" := Num.div : js_scope.
Infix "<?" := Num.ltb (at level 70) : js_scope.
Infix "<=?" := Num.leb (at level 70) : js_scope.
Infix ">?" := Num.gtb (at level 70) : js_scope.

(** Numeric literals of the source. *)
Definition lit (z : Z) : number := Fin (inject_Z z).

Arguments Num.mul : simpl never.
Arguments Num.div : simpl never.
Arguments Num.ltb : simpl never.
Arguments Num.leb : simpl never.
Arguments Num.gtb : simpl never.
Arguments lit : simpl never.

Definition neg (x : number) : number :=
  match x with
  | NaN => NaN
  | Inf s => Inf (negb s)
  | Fin q => Fin (- q)
  end.

(** ** [parseFloat]

    The ECMAScript builtin: skip leading white space, then read the longest
    prefix that is a [StrDecimalLiteral]; [NaN] when there is none.  A string
    is a sequence of code units, here those below 256.  [parseFloat] below
    returns the mathematical value of the literal, before rounding;
    [B64.parseFloat] rounds it to the nearest double, as the builtin does. *)

Definition isWhiteSpace (c : ascii) : bool :=
  existsb (N.eqb (N_of_ascii c)) [9; 10; 11; 12; 13; 32; 160]%N.

Fixpoint trimStart (s : string) : string :=
  match s with
  | String c rest => if isWhiteSpace c then trimStart rest else s
  | EmptyString => s
  end.

Definition digitValue (c : ascii) : option Z :=
  let n := Z.of_N (N_of_ascii c) in
  if ((48 <=? n) && (n <=? 57))%Z then Some (n - 48)%Z else None.

(** Reads [DecimalDigits] greedily: the value accumulated onto [acc], the
    number of digits read, and the rest of the string. *)
Fixpoint decimalDigits (s : string) (acc : Z) (count : nat) : Z * nat * string :=
  match s with
  | String c rest =>
      match digitValue c with
      | Some d => decimalDigits rest (10 * acc + d)%Z (S count)
      | None => (acc, count, s)
      end
  | EmptyString => (acc, count, s)
  end.

(** The exponent of a complete [ExponentPart] at the head of [s], and 0 when
    there is none (an [e] without digits is not part of the literal). *)
Definition exponentPart (s : string) : Z :=
  match s with
  | String c rest =>
      if Ascii.eqb c "e" || Ascii.eqb c "E" then
        let '(negative, ds) :=
          match rest with
          | String "-"%char r => (true, r)
          | String "+"%char r => (false, r)
          | _ => (false, rest)
          end in
        let '(v, n, _) := decimalDigits ds 0 0 in
        match n with
        | O => 0%Z
        | S _ => if negative then (- v)%Z else v
        end
      else 0%Z
  | EmptyString => 0%Z
  end.

Definition strUnsignedDecimalLiteral (s : string) : number :=
  if prefix "Infinity" s then Inf false else
  let '(i, ni, r1) := decimalDigits s 0 0 in
  match r1 with
  | String "."%char r2 =>
      let '(m, nm, r3) := decimalDigits r2 i 0 in
      match ni, nm with
      | O, O => NaN
      | _, _ => Fin (inject_Z m * (10 # 1) ^ (exponentPart r3 - Z.of_nat nm))
      end
  | _ =>
      match ni with
      | O => NaN
      | S _ => Fin (inject_Z i * (10 # 1) ^ exponentPart r1)
      end
  end.

Definition parseFloat (s : string) : number :=
  match trimStart s with
  | String "-"%char r => neg (strUnsignedDecimalLiteral r)
  | String "+"%char r => strUnsignedDecimalLiteral r
  | r => strUnsignedDecimalLiteral r
  end.

(** ** Component state

    The eight [useState] cells of [App]: the four input strings and the four
    computed metrics, where [None] is JavaScript's [null]. *)

Record AppState : Type := mkAppState {
  investmentCost : string;
  annualNetSales : string;
  ebitdaPercentage : string;
  annualRentCam : string;
  salesToInvestmentRatio : option number;
  paybackPeriod : option number;
  roi : option number;
  rentFactor : option number
}.

(** The state of the first render. *)
Definition initialState : AppState :=
  mkAppState "" "" "" "" None None None None.

(** A callback of the component reads the state and queues updates of it. *)
Definition Effect (A : Type) : Type := AppState -> A * AppState.

Definition ret {A : Type} (a : A) : Effect A := fun st => (a, st).

Definition bind {A B : Type} (c : Effect A) (k : A -> Effect B) : Effect B :=
  fun st => let '(a, st') := c st in k a st'.

Definition get : Effect AppState := fun st => (st, st).

Definition exec {A : Type} (c : Effect A) (st : AppState) : AppState :=
  snd (c st).

Notation "x <- c ;; k" := (bind c (fun x => k))
  (at level 61, c at next level, right associativity).
Notation "c ;; k" := (bind c (fun _ => k))
  (at level 61, right associativity).

Definition setInvestmentCost (v : string) : Effect unit := fun st =>
  (tt, mkAppState v (annualNetSales st) (ebitdaPercentage st) (annualRentCam st)
         (salesToInvestmentRatio st) (paybackPeriod st) (roi st) (rentFactor st)).

Definition setAnnualNetSales (v : string) : Effect unit := fun st =>
  (tt, mkAppState (investmentCost st) v (ebitdaPercentage st) (annualRentCam st)
         (salesToInvestmentRatio st) (paybackPeriod st) (roi st) (rentFactor st)).

Definition setEbitdaPercentage (v : string) : Effect unit := fun st =>
  (tt, mkAppState (investmentCost st) (annualNetSales st) v (annualRentCam st)
         (salesToInvestmentRatio st) (paybackPeriod st) (roi st) (rentFactor st)).

Definition setAnnualRentCam (v : string) : Effect unit := fun st =>
  (tt, mkAppState (investmentCost st) (annualNetSales st) (ebitdaPercentage st) v
         (salesToInvestmentRatio st) (paybackPeriod st) (roi st) (rentFactor st)).

Definition setSalesToInvestmentRatio (v : option number) : Effect unit := fun st =>
  (tt, mkAppState (investmentCost st) (annualNetSales st) (ebitdaPercentage st)
         (annualRentCam st) v (paybackPeriod st) (roi st) (rentFactor st)).

Definition setPaybackPeriod (v : option number) : Effect unit := fun st =>
  (tt, mkAppState (investmentCost st) (annualNetSales st) (ebitdaPercentage st)
         (annualRentCam st) (salesToInvestmentRatio st) v (roi st) (rentFactor st)).

Definition setRoi (v : option number) : Effect unit := fun st =>
  (tt, mkAppState (investmentCost st) (annualNetSales st) (ebitdaPercentage st)
         (annualRentCam st) (salesToInvestmentRatio st) (paybackPeriod st) v
         (rentFactor st)).

Definition setRentFactor (v : option number) : Effect unit := fun st =>
  (tt, mkAppState (investmentCost st) (annualNetSales st) (ebitdaPercentage st)
         (annualRentCam st) (salesToInvestmentRatio st) (paybackPeriod st) (roi st)
         v).

(** ** [calculateMetrics]

    The same text in both copies of the component.  Here on [number], that
    is with the operations before rounding; [B64.calculateMetrics] is the
    callback on doubles. *)

Definition calculateMetrics : Effect unit :=
  st <- get ;;
  let tic := parseFloat (investmentCost st) in
  let pans := parseFloat (annualNetSales st) in
  let ebitdaPct := (parseFloat (ebitdaPercentage st) / lit 100)%js in
  let arc := parseFloat (annualRentCam st) in
  if Num.isNaN tic || Num.isNaN pans || Num.isNaN ebitdaPct || Num.isNaN arc then
    setSalesToInvestmentRatio None ;;
    setPaybackPeriod None ;;
    setRoi None ;;
    setRentFactor None
  else
    let pae := (pans * ebitdaPct)%js in
    setSalesToInvestmentRatio (if (tic >? lit 0)%js then Some (pans / tic)%js else None) ;;
    setPaybackPeriod (if (pae >? lit 0)%js then Some (tic / pae)%js else None) ;;
    setRoi (if (tic >? lit 0)%js then Some ((pae / tic) * lit 100)%js else None) ;;
    setRentFactor (if (pans >? lit 0)%js then Some ((arc / pans) * lit 100)%js else None).

(** The projected annual EBITDA of the callback, [pans * ebitdaPct], on
    finite values. *)
Definition projectedAnnualEbitda (pans e : Q) : Q := pans * (e / 100).

(** ** Benchmarks and status *)

(** A benchmark is either a number or an object with fields [ideal] and
    [max]. *)
Inductive benchmark : Type :=
| BNumber (n : number)
| BRange (ideal max : number).

Module Benchmark.

(** The benchmark used as an operand of [<] or [>]: an object converts to
    [NaN]. *)
Definition toNumber (b : benchmark) : number :=
  match b with BNumber n => n | BRange _ _ => NaN end.

(** [benchmark.ideal] and [benchmark.max] as operands of a comparison: the
    property of a number is [undefined], which converts to [NaN]. *)
Definition ideal (b : benchmark) : number :=
  match b with BRange i _ => i | BNumber _ => NaN end.

Definition max (b : benchmark) : number :=
  match b with BRange _ m => m | BNumber _ => NaN end.

End Benchmark.

Module benchmarks.

Definition salesToInvestmentRatio : benchmark := BNumber (Fin 1.5).
Definition paybackPeriod : benchmark := BRange (lit 5) (lit 7).
Definition roi : benchmark := BNumber (lit 20).
Definition rentFactor : benchmark := BNumber (lit 10).

End benchmarks.

Record status : Type := mkStatus { text : string; color : string }.

(** ** src/src/App.jsx *)
Module App.

(** *** [InputField] *)

Fixpoint stripCommas (val : string) : string :=
  match val with
  | String c rest =>
      if Ascii.eqb c "," then stripCommas rest else String c (stripCommas rest)
  | EmptyString => EmptyString
  end.

Definition isDigit (c : ascii) : bool :=
  match digitValue c with Some _ => true | None => false end.

Fixpoint allDigits (s : string) : bool :=
  match s with
  | String c rest => isDigit c && allDigits rest
  | EmptyString => true
  end.

Fixpoint dropDigits (s : string) : string :=
  match s with
  | String c rest => if isDigit c then dropDigits rest else s
  | EmptyString => s
  end.

(** The test of the regular expression of [handleChange]: the whole text is
    empty, or one or more digits, optionally followed by a point and any
    number of digits. *)
Definition decimalPattern (raw : string) : bool :=
  match raw with
  | EmptyString => true
  | String c _ =>
      isDigit c &&
      match dropDigits raw with
      | EmptyString => true
      | String d rest => Ascii.eqb d "." && allDigits rest
      end
  end.

(** [handleChange] of an input with the given unit, on the text of the
    event: the argument [onChange] is called with, if it is called. *)
Definition handleChange (unit incoming : string) : option string :=
  if String.eqb unit "$" then
    let raw := stripCommas incoming in
    if String.eqb raw "" || decimalPattern raw then Some raw else None
  else if String.eqb unit "%" then
    let raw := stripCommas incoming in
    if String.eqb raw "" || decimalPattern raw then Some raw else None
  else Some incoming.

(** The four inputs rendered by [App], with their [unit] and [onChange]
    properties. *)
Inductive field : Type :=
| InvestmentCost | AnnualNetSales | EbitdaPercentage | AnnualRentCam.

Definition unit_of (f : field) : string :=
  match f with
  | EbitdaPercentage => "%"
  | InvestmentCost | AnnualNetSales | AnnualRentCam => "$"
  end.

Definition onChange (f : field) : string -> Effect unit :=
  match f with
  | InvestmentCost => setInvestmentCost
  | AnnualNetSales => setAnnualNetSales
  | EbitdaPercentage => setEbitdaPercentage
  | AnnualRentCam => setAnnualRentCam
  end.

(** A change event on an input: when [handleChange] accepts the text, the
    state cell is written and the effect runs [calculateMetrics] on the new
    inputs. *)
Definition change (f : field) (incoming : string) : Effect unit :=
  match handleChange (unit_of f) incoming with
  | Some raw => onChange f raw ;; calculateMetrics
  | None => ret tt
  end.

(** The states of the component: after the first render and its effect, and
    after each change event. *)
Inductive reachable : AppState -> Prop :=
| reachable_mount : reachable (exec calculateMetrics initialState)
| reachable_change (st : AppState) (f : field) (incoming : string) :
    reachable st -> reachable (exec (change f incoming) st).

(** *** [getBenchmarkStatus] *)

Definition getBenchmarkStatus
    (value : option number) (benchmark : benchmark) (type : string) : status :=
  match value with
  | None => mkStatus "N/A" "text-gray-500"
  | Some value =>
      if String.eqb type "salesToInvestmentRatio" then
        if (value >? Benchmark.toNumber benchmark)%js
        then mkStatus "Meets Target" "text-green-600"
        else mkStatus "Below Target" "text-red-600"
      else if String.eqb type "paybackPeriod" then
        if (value <=? Benchmark.ideal benchmark)%js
        then mkStatus "Excellent" "text-green-600"
        else if (value <? Benchmark.max benchmark)%js
        then mkStatus "Good" "text-yellow-600"
        else mkStatus "High Risk" "text-red-600"
      else if String.eqb type "rentFactor" then
        if (value <? Benchmark.toNumber benchmark)%js
        then mkStatus "Meets Target" "text-green-600"
        else mkStatus "High" "text-red-600"
      else mkStatus "" ""
  end.

End App.

(** ** The second copy of the component in the repository

    Its [calculateMetrics] is the one above; its classifier also has a case
    for the ROI. *)
Module Part000.

Definition getBenchmarkStatus
    (value : option number) (benchmark : benchmark) (type : string) : status :=
  match value with
  | None => mkStatus "N/A" "text-gray-500"
  | Some value =>
      if String.eqb type "salesToInvestmentRatio" then
        if (value >? Benchmark.toNumber benchmark)%js
        then mkStatus "Meets Target" "text-green-600"
        else mkStatus "Below Target" "text-red-600"
      else if String.eqb type "paybackPeriod" then
        if (value <=? Benchmark.ideal benchmark)%js
        then mkStatus "Excellent" "text-green-600"
        else if (value <? Benchmark.max benchmark)%js
        then mkStatus "Good" "text-yellow-600"
        else mkStatus "High Risk" "text-red-600"
      else if String.eqb type "roi" then
        if (value >? Benchmark.toNumber benchmark)%js
        then mkStatus "Meets Target" "text-green-600"
        else mkStatus "Below Target" "text-red-600"
      else if String.eqb type "rentFactor" then
        if (value <? Benchmark.toNumber benchmark)%js
        then mkStatus "Meets Target" "text-green-600"
        else mkStatus "High" "text-red-600"
      else mkStatus "" ""
  end.

End Part000.

(** ** The code on binary64 numbers *)

Declare Scope b64_scope.
Delimit Scope b64_scope with b64.

Module B64.

(** *** [parseFloat] *)

(** The double nearest to a rational (ties to even, overflow to an
    infinity): the correctly rounded quotient of numerator and
    denominator. *)
Definition ofQ (q : Q) : float :=
  match Qnum q with
  | Z0 => zero
  | Zpos n =>
      SF2Prim (SFdiv prec emax (S754_finite false n 0)
                 (S754_finite false (Qden q) 0))
  | Zneg n =>
      SF2Prim (SFdiv prec emax (S754_finite true n 0)
                 (S754_finite false (Qden q) 0))
  end.

Definition ofNumber (x : number) : float :=
  match x with
  | NaN => nan
  | Inf negative => if negative then neg_infinity else infinity
  | Fin q => ofQ q
  end.

(** The builtin: the value of the unsigned literal, rounded, with the sign
    of the text (so "-0" is the negative zero). *)
Definition parseFloat (s : string) : float :=
  match trimStart s with
  | String "-"%char r => (- ofNumber (strUnsignedDecimalLiteral r))%float
  | String "+"%char r => ofNumber (strUnsignedDecimalLiteral r)
  | r => ofNumber (strUnsignedDecimalLiteral r)
  end.

(** *** Component state *)

Record AppState : Type := mkAppState {
  investmentCost : string;
  annualNetSales : string;
  ebitdaPercentage : string;
  annualRentCam : string;
  salesToInvestmentRatio : option float;
  paybackPeriod : option float;
  roi : option float;
  rentFactor : option float
}.

Definition initialState : AppState :=
  mkAppState "" "" "" "" None None None None.

Definition Effect (A : Type) : Type := AppState -> A * AppState.

Definition ret {A : Type} (a : A) : Effect A := fun st => (a, st).

Definition bind {A B : Type} (c : Effect A) (k : A -> Effect B) : Effect B :=
  fun st => let '(a, st') := c st in k a st'.

Definition get : Effect AppState := fun st => (st, st).

Definition exec {A : Type} (c : Effect A) (st : AppState) : AppState :=
  snd (c st).

Notation "x <- c ;; k" := (bind c (fun x => k))
  (at level 61, c at next level, right associativity) : b64_scope.
Notation "c ;; k" := (bind c (fun _ => k))
  (at level 61, right associativity) : b64_scope.

Definition setInvestmentCost (v : string) : Effect unit := fun st =>
  (tt, mkAppState v (annualNetSales st) (ebitdaPercentage st) (annualRentCam st)
         (salesToInvestmentRatio st) (paybackPeriod st) (roi st) (rentFactor st)).

Definition setAnnualNetSales (v : string) : Effect unit := fun st =>
  (tt, mkAppState (investmentCost st) v (ebitdaPercentage st) (annualRentCam st)
         (salesToInvestmentRatio st) (paybackPeriod st) (roi st) (rentFactor st)).

Definition setEbitdaPercentage (v : string) : Effect unit := fun st =>
  (tt, mkAppState (investmentCost st) (annualNetSales st) v (annualRentCam st)
         (salesToInvestmentRatio st) (paybackPeriod st) (roi st) (rentFactor st)).

Definition setAnnualRentCam (v : string) : Effect unit := fun st =>
  (tt, mkAppState (investmentCost st) (annualNetSales st) (ebitdaPercentage st) v
         (salesToInvestmentRatio st) (paybackPeriod st) (roi st) (rentFactor st)).

Definition setSalesToInvestmentRatio (v : option float) : Effect unit := fun st =>
  (tt, mkAppState (investmentCost st) (annualNetSales st) (ebitdaPercentage st)
         (annualRentCam st) v (paybackPeriod st) (roi st) (rentFactor st)).

Definition setPaybackPeriod (v : option float) : Effect unit := fun st =>
  (tt, mkAppState (investmentCost st) (annualNetSales st) (ebitdaPercentage st)
         (annualRentCam st) (salesToInvestmentRatio st) v (roi st) (rentFactor st)).

Definition setRoi (v : option float) : Effect unit := fun st =>
  (tt, mkAppState (investmentCost st) (annualNetSales st) (ebitdaPercentage st)
         (annualRentCam st) (salesToInvestmentRatio st) (paybackPeriod st) v
         (rentFactor st)).

Definition setRentFactor (v : option float) : Effect unit := fun st =>
  (tt, mkAppState (investmentCost st) (annualNetSales st) (ebitdaPercentage st)
         (annualRentCam st) (salesToInvestmentRatio st) (paybackPeriod st) (roi st)
         v).

(** *** [calculateMetrics] *)

Definition calculateMetrics : Effect unit :=
  (st <- get ;;
   let tic := parseFloat (investmentCost st) in
   let pans := parseFloat (annualNetSales st) in
   let ebitdaPct := (parseFloat (ebitdaPercentage st) / 100)%float in
   let arc := parseFloat (annualRentCam st) in
   if is_nan tic || is_nan pans || is_nan ebitdaPct || is_nan arc then
     setSalesToInvestmentRatio None ;;
     setPaybackPeriod None ;;
     setRoi None ;;
     setRentFactor None
   else
     let pae := (pans * ebitdaPct)%float in
     setSalesToInvestmentRatio
       (if (0 <? tic)%float then Some (pans / tic)%float else None) ;;
     setPaybackPeriod
       (if (0 <? pae)%float then Some (tic / pae)%float else None) ;;
     setRoi
       (if (0 <? tic)%float then Some ((pae / tic) * 100)%float else None) ;;
     setRentFactor
       (if (0 <? pans)%float then Some ((arc / pans) * 100)%float else None))%b64.

(** The four metric cells of a state, and the input a field holds. *)
Definition metricValues (st : AppState) : list (option float) :=
  [salesToInvestmentRatio st; paybackPeriod st; roi st; rentFactor st].

Definition inputOf (f : App.field) (st : AppState) : string :=
  match f with
  | App.InvestmentCost => investmentCost st
  | App.AnnualNetSales => annualNetSales st
  | App.EbitdaPercentage => ebitdaPercentage st
  | App.AnnualRentCam => annualRentCam st
  end.

(** *** Benchmarks *)

Inductive benchmark : Type :=
| BNumber (n : float)
| BRange (ideal max : float).

Module Benchmark.

Definition toNumber (b : benchmark) : float :=
  match b with BNumber n => n | BRange _ _ => nan end.

Definition ideal (b : benchmark) : float :=
  match b with BRange i _ => i | BNumber _ => nan end.

Definition max (b : benchmark) : float :=
  match b with BRange _ m => m | BNumber _ => nan end.

End Benchmark.

Module benchmarks.

Definition salesToInvestmentRatio : benchmark := BNumber 1.5%float.
Definition paybackPeriod : benchmark := BRange 5%float 7%float.
Definition roi : benchmark := BNumber 20%float.
Definition rentFactor : benchmark := BNumber 10%float.

End benchmarks.

(** *** src/src/App.jsx *)
Module App.

Definition onChange (f : App.field) : string -> Effect unit :=
  match f with
  | App.InvestmentCost => setInvestmentCost
  | App.AnnualNetSales => setAnnualNetSales
  | App.EbitdaPercentage => setEbitdaPercentage
  | App.AnnualRentCam => setAnnualRentCam
  end.

Definition change (f : App.field) (incoming : string) : Effect unit :=
  match App.handleChange (App.unit_of f) incoming with
  | Some raw => (onChange f raw ;; calculateMetrics)%b64
  | None => ret tt
  end.

Inductive reachable : AppState -> Prop :=
| reachable_mount : reachable (exec calculateMetrics initialState)
| reachable_change (st : AppState) (f : App.field) (incoming : string) :
    reachable st -> reachable (exec (change f incoming) st).

Definition getBenchmarkStatus
    (value : option float) (benchmark : benchmark) (type : string) : status :=
  match value with
  | None => mkStatus "N/A" "text-gray-500"
  | Some value =>
      if String.eqb type "salesToInvestmentRatio" then
        if (Benchmark.toNumber benchmark <? value)%float
        then mkStatus "Meets Target" "text-green-600"
        else mkStatus "Below Target" "text-red-600"
      else if String.eqb type "paybackPeriod" then
        if (value <=? Benchmark.ideal benchmark)%float
        then mkStatus "Excellent" "text-green-600"
        else if (value <? Benchmark.max benchmark)%float
        then mkStatus "Good" "text-yellow-600"
        else mkStatus "High Risk" "text-red-600"
      else if String.eqb type "rentFactor" then
        if (value <? Benchmark.toNumber benchmark)%float
        then mkStatus "Meets Target" "text-green-600"
        else mkStatus "High" "text-red-600"
      else mkStatus "" ""
  end.

End App.

(** *** The second copy of the component *)
Module Part000.

Definition getBenchmarkStatus
    (value : option float) (benchmark : benchmark) (type : string) : status :=
  match value with
  | None => mkStatus "N/A" "text-gray-500"
  | Some value =>
      if String.eqb type "salesToInvestmentRatio" then
        if (Benchmark.toNumber benchmark <? value)%float
        then mkStatus "Meets Target" "text-green-600"
        else mkStatus "Below Target" "text-red-600"
      else if String.eqb type "paybackPeriod" then
        if (value <=? Benchmark.ideal benchmark)%float
        then mkStatus "Excellent" "text-green-600"
        else if (value <? Benchmark.max benchmark)%float
        then mkStatus "Good" "text-yellow-600"
        else mkStatus "High Risk" "text-red-600"
      else if String.eqb type "roi" then
        if (Benchmark.toNumber benchmark <? value)%float
        then mkStatus "Meets Target" "text-green-600"
        else mkStatus "Below Target" "text-red-600"
      else if String.eqb type "rentFactor" then
        if (value <? Benchmark.toNumber benchmark)%float
        then mkStatus "Meets Target" "text-green-600"
        else mkStatus "High" "text-red-600"
      else mkStatus "" ""
  end.

End Part000.

(** The two copies of the classifier. *)
Definition classifiers : list (option float -> benchmark -> string -> status) :=
  [App.getBenchmarkStatus; Part000.getBenchmarkStatus].

End B64.

(** ** Vocabulary of the statements *)

(** The severity a status colour stands for. *)
Inductive severity : Type := good | warning | bad | unknown.

Definition severity_of (s : status) : option severity :=
  if String.eqb (color s) "text-green-600" then Some good
  else if String.eqb (color s) "text-yellow-600" then Some warning
  else if String.eqb (color s) "text-red-600" then Some bad
  else if String.eqb (color s) "text-gray-500" then Some unknown
  else None.

(** A status carries the given label and stands for the given severity. *)
Definition classified (s : status) (label : string) (sev : severity) : Prop :=
  text s = label /\ severity_of s = Some sev.

(** The two copies of the classifier. *)
Definition classifiers : list (option number -> benchmark -> string -> status) :=
  [App.getBenchmarkStatus; Part000.getBenchmarkStatus].

(** An input string is invalid when it is empty or does not parse. *)
Definition invalid (s : string) : Prop :=
  s = "" \/ Num.isNaN (parseFloat s) = true.

(** The four metric cells of a state. *)
Definition metricValues (st : AppState) : list (option number) :=
  [salesToInvestmentRatio st; paybackPeriod st; roi st; rentFactor st].

(** The spec's worked example. *)
Definition sample : AppState :=
  mkAppState "500000" "1500000" "12.5" "120000" None None None None.

(** A state whose EBITDA input has just been cleared. *)
Definition halfFilled : AppState :=
  mkAppState "500000" "1500000" "" "120000" (Some (lit 3)) None None (Some (lit 8)).

(** Two states with the same four input strings. *)
Definition sameInputs (st1 st2 : AppState) : Prop :=
  investmentCost st1 = investmentCost st2 /\
  annualNetSales st1 = annualNetSales st2 /\
  ebitdaPercentage st1 = ebitdaPercentage st2 /\
  annualRentCam st1 = annualRentCam st2.

(** Equality of numbers and of metric cells, finite values being compared as
    rationals. *)
Definition number_equiv (x y : number) : Prop :=
  match x, y with
  | NaN, NaN => True
  | Inf s, Inf t => s = t
  | Fin a, Fin b => a == b
  | _, _ => False
  end.

Definition metric_equiv (x y : option number) : Prop :=
  match x, y with
  | None, None => True
  | Some a, Some b => number_equiv a b
  | _, _ => False
  end.

(** The characters of a text, and the number of its decimal points. *)
Definition chars (s : string) : list ascii := list_ascii_of_string s.

Definition points (s : string) : nat :=
  count_occ ascii_dec (chars s) "."%char.

(** The units of the inputs that [App.handleChange] filters. *)
Definition filteredUnit (unit : string) : Prop := unit = "$" \/ unit = "%".

(** The input string a field of [App] holds. *)
Definition inputOf (f : App.field) (st : AppState) : string :=
  match f with
  | App.InvestmentCost => investmentCost st
  | App.AnnualNetSales => annualNetSales st
  | App.EbitdaPercentage => ebitdaPercentage st
  | App.AnnualRentCam => annualRentCam st
  end.

(** The spec's worked example typed into the four inputs of [App], with
    thousands separators. *)
Definition typedSample : AppState :=
  exec (App.change App.AnnualRentCam "120,000")
    (exec (App.change App.EbitdaPercentage "12.5")
       (exec (App.change App.AnnualNetSales "1,500,000")
          (exec (App.change App.InvestmentCost "500,000")
             (exec calculateMetrics initialState)))).

(** *** States of the binary64 component *)

(** The spec's worked example. *)
Definition sample64 : B64.AppState :=
  B64.mkAppState "500000" "1500000" "12.5" "120000" None None None None.

(** A zero and a negative investment cost. *)
Definition zeroInvestment64 : B64.AppState :=
  B64.mkAppState "0" "1500000" "12.5" "120000" None None None None.

Definition negativeInvestment64 : B64.AppState :=
  B64.mkAppState "-500000" "1500000" "12.5" "120000" None None None None.

(** Positive net sales and EBITDA percentage whose product is below the
    smallest positive double. *)
Definition underflow64 : B64.AppState :=
  B64.mkAppState "500000" "1e-201" "1e-201" "120000" None None None None.

(** Inputs that read as [Infinity]. *)
Definition infiniteInputs64 : B64.AppState :=
  B64.mkAppState "Infinity" "Infinity" "12.5" "120000" None None None None.

(** The worked example typed into the four inputs of [App], with thousands
    separators. *)
Definition typedSample64 : B64.AppState :=
  B64.exec (B64.App.change App.AnnualRentCam "120,000")
    (B64.exec (B64.App.change App.EbitdaPercentage "12.5")
       (B64.exec (B64.App.change App.AnnualNetSales "1,500,000")
          (B64.exec (B64.App.change App.InvestmentCost "500,000")
             (B64.exec B64.calculateMetrics B64.initialState)))).

(** The four inputs passed the filter of [App.handleChange]. *)
Definition filtered64 (st : B64.AppState) : Prop :=
  forall f : App.field, App.decimalPattern (B64.inputOf f st) = true.

(** *** Shapes of binary64 values

    A double seen through [Prim2SF]: a zero, an infinity, [NaN], or a finite
    value with sign, mantissa and exponent. *)

(** Neither [NaN] nor with another sign bit than [s]. *)
Definition signed (s : bool) (x : spec_float) : Prop :=
  match x with
  | S754_zero t | S754_infinity t | S754_finite t _ _ => t = s
  | S754_nan => False
  end.

Definition is_zero_sf (x : spec_float) : Prop :=
  match x with S754_zero _ => True | _ => False end.

Definition finite_sf (x : spec_float) : Prop :=
  match x with S754_zero _ | S754_finite _ _ _ => True | _ => False end.

(** Greater than zero, and less than or equal to zero. *)
Definition positive_sf (x : spec_float) : Prop :=
  match x with
  | S754_finite false _ _ | S754_infinity false => True
  | _ => False
  end.

Definition nonpositive_sf (x : spec_float) : Prop :=
  match x with
  | S754_zero _ | S754_finite true _ _ | S754_infinity true => True
  | _ => False
  end.

Definition negative_sf (x : spec_float) : Prop :=
  match x with
  | S754_finite true _ _ | S754_infinity true => True
  | _ => False
  end.

(** [NaN], or a value with the sign bit clear: what the operations give on
    operands of that kind. *)
Definition unsigned64 (x : float) : Prop :=
  Prim2SF x = S754_nan \/ signed false (Prim2SF x).

(** The mantissa of a shift record is not negative. *)
Definition nonneg_m (mrs : shr_record) : Prop := (0 <= shr_m mrs)%Z.

(** Settles [classified s label sev <-> P] once [s] is a literal status and the
    comparisons that led to it are in the context. *)
Ltac status_iff :=
  split;
  [ intros [K1 K2]; first [discriminate K1 | discriminate K2 | lra]
  | intro K; first [lra | split; reflexivity] ].

(** * Properties *)

(** ** Comparisons and arithmetic on finite values *)

Lemma Qltb_spec (a b : Q) : Qltb a b = true <-> a < b.
Proof.
  unfold Qltb. rewrite negb_true_iff.
  destruct (Qle_bool b a) eqn:E.
  - apply Qle_bool_iff in E. split; [discriminate | intro H; lra].
  - split; [intros _ | reflexivity].
    destruct (Qlt_le_dec a b) as [H | H]; [exact H |].
    apply Qle_bool_iff in H. congruence.
Qed.

Lemma Qltb_false (a b : Q) : Qltb a b = false <-> b <= a.
Proof.
  pose proof (Qltb_spec a b) as H.
  destruct (Qltb a b); split; intro K; try reflexivity; try discriminate.
  - assert (a < b) by (apply H; reflexivity). lra.
  - apply Qnot_lt_le. intro L. apply H in L. discriminate.
Qed.

Lemma Qle_bool_false (a b : Q) : Qle_bool a b = false <-> b < a.
Proof.
  pose proof (Qle_bool_iff a b) as H.
  destruct (Qle_bool a b); split; intro K; try reflexivity; try discriminate.
  - assert (a <= b) by (apply H; reflexivity). lra.
  - apply Qnot_le_lt. intro L. apply H in L. discriminate.
Qed.

Lemma Qltb_0_true (d : Q) : 0 < d -> Qltb 0 d = true.
Proof. apply Qltb_spec. Qed.

Lemma Qeq_bool_false_of_pos (b : Q) : 0 < b -> Qeq_bool b 0 = false.
Proof.
  intro H. destruct (Qeq_bool b 0) eqn:E; [| reflexivity].
  apply Qeq_bool_iff in E. lra.
Qed.

Lemma gtb_Fin_0 (a : Q) : (Fin a >? lit 0)%js = Qltb 0 a.
Proof. reflexivity. Qed.

Lemma mul_Fin (a b : Q) : (Fin a * Fin b)%js = Fin (a * b).
Proof. reflexivity. Qed.

Lemma div_Fin_pos (a b : Q) : 0 < b -> (Fin a / Fin b)%js = Fin (a / b).
Proof.
  intro H. unfold Num.div. now rewrite (Qeq_bool_false_of_pos b H).
Qed.

Lemma div_Fin_100 (a : Q) : (Fin a / lit 100)%js = Fin (a / 100).
Proof. reflexivity. Qed.

(** Dividing by the literal 100 neither creates nor removes a [NaN]. *)
Lemma isNaN_div_100 (x : number) : Num.isNaN (x / lit 100)%js = Num.isNaN x.
Proof. destruct x; reflexivity. Qed.

(** A quotient behind its guard: the division is by a positive number. *)
Lemma guarded_div (n d : Q) (k : number -> number) :
  (if Qltb 0 d then Some (k (Fin n / Fin d)%js) else None) =
  (if Qltb 0 d then Some (k (Fin (n / d))) else None).
Proof.
  destruct (Qltb 0 d) eqn:E; [| reflexivity].
  apply Qltb_spec in E. now rewrite div_Fin_pos.
Qed.

(** ** What [calculateMetrics] writes *)

(** The callback as one function of the state. *)
Lemma calculateMetrics_unfold (st : AppState) :
  exec calculateMetrics st =
  let tic := parseFloat (investmentCost st) in
  let pans := parseFloat (annualNetSales st) in
  let ebitdaPct := (parseFloat (ebitdaPercentage st) / lit 100)%js in
  let arc := parseFloat (annualRentCam st) in
  let pae := (pans * ebitdaPct)%js in
  if Num.isNaN tic || Num.isNaN pans || Num.isNaN ebitdaPct || Num.isNaN arc
  then mkAppState (investmentCost st) (annualNetSales st) (ebitdaPercentage st)
                  (annualRentCam st) None None None None
  else mkAppState (investmentCost st) (annualNetSales st) (ebitdaPercentage st)
                  (annualRentCam st)
         (if (tic >? lit 0)%js then Some (pans / tic)%js else None)
         (if (pae >? lit 0)%js then Some (tic / pae)%js else None)
         (if (tic >? lit 0)%js then Some ((pae / tic) * lit 100)%js else None)
         (if (pans >? lit 0)%js then Some ((arc / pans) * lit 100)%js else None).
Proof.
  unfold exec, calculateMetrics, bind, get; cbn.
  destruct (_ || _); reflexivity.
Qed.

(** It only writes the four metric cells. *)
Lemma calculateMetrics_inputs (st : AppState) :
  investmentCost (exec calculateMetrics st) = investmentCost st /\
  annualNetSales (exec calculateMetrics st) = annualNetSales st /\
  ebitdaPercentage (exec calculateMetrics st) = ebitdaPercentage st /\
  annualRentCam (exec calculateMetrics st) = annualRentCam st.
Proof.
  rewrite calculateMetrics_unfold; cbv zeta.
  destruct (_ || _); repeat split.
Qed.

(** Running it again changes nothing: the result depends on the inputs
    only. *)
Lemma calculateMetrics_idempotent (st : AppState) :
  exec calculateMetrics (exec calculateMetrics st) = exec calculateMetrics st.
Proof.
  destruct (calculateMetrics_inputs st) as (H1 & H2 & H3 & H4).
  rewrite (calculateMetrics_unfold (exec calculateMetrics st)).
  rewrite H1, H2, H3, H4. symmetry. apply calculateMetrics_unfold.
Qed.

(** The gate closed: some parsed value is [NaN]. *)
Lemma calculateMetrics_gate (st : AppState) :
  Num.isNaN (parseFloat (investmentCost st))
  || Num.isNaN (parseFloat (annualNetSales st))
  || Num.isNaN (parseFloat (ebitdaPercentage st))
  || Num.isNaN (parseFloat (annualRentCam st)) = true ->
  exec calculateMetrics st =
  mkAppState (investmentCost st) (annualNetSales st) (ebitdaPercentage st)
             (annualRentCam st) None None None None.
Proof.
  intro H. rewrite calculateMetrics_unfold; cbv zeta.
  rewrite isNaN_div_100, H. reflexivity.
Qed.

Lemma invalid_isNaN (s : string) : invalid s -> Num.isNaN (parseFloat s) = true.
Proof. intros [-> | H]; [reflexivity | exact H]. Qed.

(** The gate open on four finite values. *)
Lemma calculateMetrics_Fin (st : AppState) (tic pans e arc : Q) :
  parseFloat (investmentCost st) = Fin tic ->
  parseFloat (annualNetSales st) = Fin pans ->
  parseFloat (ebitdaPercentage st) = Fin e ->
  parseFloat (annualRentCam st) = Fin arc ->
  let pae := projectedAnnualEbitda pans e in
  exec calculateMetrics st =
  mkAppState (investmentCost st) (annualNetSales st) (ebitdaPercentage st)
             (annualRentCam st)
             (if Qltb 0 tic then Some (Fin (pans / tic)) else None)
             (if Qltb 0 pae then Some (Fin (tic / pae)) else None)
             (if Qltb 0 tic then Some (Fin (pae / tic * 100)) else None)
             (if Qltb 0 pans then Some (Fin (arc / pans * 100)) else None).
Proof.
  intros Ht Hp He Ha pae.
  rewrite calculateMetrics_unfold; cbv zeta.
  rewrite Ht, Hp, He, Ha, div_Fin_100, mul_Fin.
  change (pans * (e / 100)) with pae.
  cbn [Num.isNaN orb]. rewrite !gtb_Fin_0.
  rewrite (guarded_div pans tic (fun x => x)).
  rewrite (guarded_div tic pae (fun x => x)).
  rewrite (guarded_div pae tic (fun x => (x * lit 100)%js)).
  rewrite (guarded_div arc pans (fun x => (x * lit 100)%js)).
  reflexivity.
Qed.

(** A stored metric never classifies as "N/A". *)
Lemma getBenchmarkStatus_present (v : number) (b : benchmark) (type : string) :
  text (App.getBenchmarkStatus (Some v) b type) <> "N/A".
Proof.
  unfold App.getBenchmarkStatus.
  repeat match goal with
         | |- context [if ?c then _ else _] => destruct c
         end; cbn; discriminate.
Qed.

(** ** The metrics of four finite inputs, in exact arithmetic *)

Section FiniteInputs.

Variables (st : AppState) (tic pans e arc : Q).

Hypothesis parse_tic : parseFloat (investmentCost st) = Fin tic.
Hypothesis parse_pans : parseFloat (annualNetSales st) = Fin pans.
Hypothesis parse_e : parseFloat (ebitdaPercentage st) = Fin e.
Hypothesis parse_arc : parseFloat (annualRentCam st) = Fin arc.

Local Abbreviation r := (exec calculateMetrics st).
Local Abbreviation pae := (projectedAnnualEbitda pans e).

Lemma stored_salesToInvestmentRatio :
  salesToInvestmentRatio r = if Qltb 0 tic then Some (Fin (pans / tic)) else None.
Proof.
  now rewrite (calculateMetrics_Fin st tic pans e arc parse_tic parse_pans
                 parse_e parse_arc).
Qed.

Lemma stored_paybackPeriod :
  paybackPeriod r = if Qltb 0 pae then Some (Fin (tic / pae)) else None.
Proof.
  now rewrite (calculateMetrics_Fin st tic pans e arc parse_tic parse_pans
                 parse_e parse_arc).
Qed.

Lemma stored_roi :
  roi r = if Qltb 0 tic then Some (Fin (pae / tic * 100)) else None.
Proof.
  now rewrite (calculateMetrics_Fin st tic pans e arc parse_tic parse_pans
                 parse_e parse_arc).
Qed.

Lemma stored_rentFactor :
  rentFactor r = if Qltb 0 pans then Some (Fin (arc / pans * 100)) else None.
Proof.
  now rewrite (calculateMetrics_Fin st tic pans e arc parse_tic parse_pans
                 parse_e parse_arc).
Qed.

(** C10. When the four inputs parse to finite numbers, the payback period and
    the ROI are both stored exactly when the investment cost and the projected
    annual EBITDA are positive, and then, in exact arithmetic, their product
    is 100: [roi = 100 / paybackPeriod]. *)
Theorem payback_times_roi :
  (paybackPeriod r <> None /\ roi r <> None <-> 0 < tic /\ 0 < pae) /\
  (forall p ro : number,
     paybackPeriod r = Some p -> roi r = Some ro ->
     exists qp qr : Q,
       p = Fin qp /\ ro = Fin qr /\ qp * qr == 100 /\ qr == 100 / qp).
Proof.
  rewrite stored_paybackPeriod, stored_roi.
  destruct (Qltb 0 tic) eqn:Et; destruct (Qltb 0 pae) eqn:Ep;
    try apply Qltb_spec in Et; try apply Qltb_spec in Ep;
    try apply Qltb_false in Et; try apply Qltb_false in Ep.
  - split; [split; [intros _; split; assumption | intros _; split; discriminate] |].
    intros p ro [= <-] [= <-].
    exists (tic / pae), (pae / tic * 100).
    repeat split; field; split; lra.
  - split; [split; [intros [K _]; now elim K | intros [_ K]; lra] |].
    intros p ro K; discriminate K.
  - split; [split; [intros [_ K]; now elim K | intros [K _]; lra] |].
    intros p ro _ K; discriminate K.
  - split; [split; [intros [K _]; now elim K | intros [K _]; lra] |].
    intros p ro K; discriminate K.
Qed.

End FiniteInputs.

Lemma payback_times_roi_witness :
  (parseFloat (investmentCost sample) = Fin 500000 /\
   parseFloat (annualNetSales sample) = Fin 1500000 /\
   parseFloat (ebitdaPercentage sample) = Fin 12.5 /\
   parseFloat (annualRentCam sample) = Fin 120000) /\
  exists qp qr : Q,
    paybackPeriod (exec calculateMetrics sample) = Some (Fin qp) /\
    roi (exec calculateMetrics sample) = Some (Fin qr) /\
    qp * qr == 100.
Proof.
  split; [repeat split |].
  destruct (payback_times_roi sample 500000 1500000 12.5 120000
              eq_refl eq_refl eq_refl eq_refl) as [_ H].
  destruct (H _ _ eq_refl eq_refl) as (qp & qr & P & R & M & _).
  exists qp, qr. rewrite <- P, <- R. repeat split. exact M.
Defined.

(** ** Invalid inputs *)

(** C2. When any of the four input strings is empty or does not parse as a
    number, the callback stores [null] in all four metrics. *)
Theorem calculateMetrics_invalid_all_absent (st : AppState) :
  invalid (investmentCost st) \/ invalid (annualNetSales st) \/
  invalid (ebitdaPercentage st) \/ invalid (annualRentCam st) ->
  salesToInvestmentRatio (exec calculateMetrics st) = None /\
  paybackPeriod (exec calculateMetrics st) = None /\
  roi (exec calculateMetrics st) = None /\
  rentFactor (exec calculateMetrics st) = None.
Proof.
  intro H. rewrite calculateMetrics_gate; [repeat split |].
  destruct H as [H | [H | [H | H]]]; apply invalid_isNaN in H; rewrite H;
    repeat rewrite orb_true_r; reflexivity.
Qed.

Lemma calculateMetrics_invalid_all_absent_witness :
  invalid (ebitdaPercentage halfFilled) /\
  salesToInvestmentRatio (exec calculateMetrics halfFilled) = None /\
  paybackPeriod (exec calculateMetrics halfFilled) = None /\
  roi (exec calculateMetrics halfFilled) = None /\
  rentFactor (exec calculateMetrics halfFilled) = None.
Proof.
  split; [left; reflexivity |].
  apply (calculateMetrics_invalid_all_absent halfFilled).
  right; right; left; left; reflexivity.
Defined.

(** ** The input filter of src/src/App.jsx *)

Lemma digitValue_range (c : ascii) (d : Z) :
  digitValue c = Some d -> (0 <= d <= 9)%Z.
Proof.
  unfold digitValue.
  destruct ((48 <=? _) && (_ <=? 57))%Z eqn:E; [| discriminate].
  intros [= <-]. apply andb_true_iff in E as [L U].
  apply Z.leb_le in L, U. split.
  - apply Z.le_0_sub. exact L.
  - apply Z.le_sub_le_add_r. exact U.
Qed.

(** The digits read keep a non-negative accumulator non-negative and only
    add to the count. *)
Lemma decimalDigits_acc (s : string) :
  forall (acc : Z) (n : nat),
    (0 <= acc)%Z ->
    (0 <= fst (fst (decimalDigits s acc n)))%Z /\
    (n <= snd (fst (decimalDigits s acc n)))%nat.
Proof.
  induction s as [| c rest IH]; intros acc n Hacc; cbn.
  - split; [exact Hacc | apply Nat.le_refl].
  - destruct (digitValue c) as [d |] eqn:E; cbn.
    + apply digitValue_range in E.
      destruct (IH (10 * acc + d)%Z (S n)) as [A B].
      { apply Z.add_nonneg_nonneg; [| apply E].
        apply Z.mul_nonneg_nonneg; [discriminate | exact Hacc]. }
      split; [exact A |]. apply Nat.le_trans with (S n); [| exact B].
      apply Nat.le_succ_diag_r.
    + split; [exact Hacc | apply Nat.le_refl].
Qed.

(** A leading digit is read. *)
Lemma decimalDigits_leading (c : ascii) (rest : string) :
  App.isDigit c = true ->
  exists (i : Z) (k : nat) (r1 : string),
    decimalDigits (String c rest) 0 0 = (i, S k, r1) /\ (0 <= i)%Z.
Proof.
  unfold App.isDigit. intro H. cbn.
  destruct (digitValue c) as [d |] eqn:E; [| discriminate].
  apply digitValue_range in E.
  destruct (decimalDigits_acc rest d 1%nat) as [A B]; [apply E |].
  destruct (decimalDigits rest d 1%nat) as [[i n] r1].
  cbn in A, B. destruct n as [| k]; [inversion B |].
  exists i, k, r1. split; [reflexivity | exact A].
Qed.

Lemma decimal_value_nonneg (m z : Z) :
  (0 <= m)%Z -> 0 <= inject_Z m * (10 # 1) ^ z.
Proof.
  intro H. apply Qmult_le_0_compat.
  - change 0 with (inject_Z 0). now rewrite <- Zle_Qle.
  - apply Qpower_0_le. discriminate.
Qed.

(** A string that starts with a digit parses to a finite, non-negative
    number. *)
Lemma parseFloat_leading_digit (c : ascii) (rest : string) :
  App.isDigit c = true ->
  exists q : Q, parseFloat (String c rest) = Fin q /\ 0 <= q.
Proof.
  intro D.
  assert (P : parseFloat (String c rest) =
              let '(i, ni, r1) := decimalDigits (String c rest) 0 0 in
              match r1 with
              | String "."%char r2 =>
                  let '(m, nm, r3) := decimalDigits r2 i 0 in
                  match ni, nm with
                  | O, O => NaN
                  | _, _ =>
                      Fin (inject_Z m * (10 # 1) ^ (exponentPart r3 - Z.of_nat nm))
                  end
              | _ =>
                  match ni with
                  | O => NaN
                  | S _ => Fin (inject_Z i * (10 # 1) ^ exponentPart r1)
                  end
              end).
  { revert D. destruct c as [[] [] [] [] [] [] [] []];
      first [discriminate | intros _; reflexivity]. }
  rewrite P. clear P.
  destruct (decimalDigits_leading c rest D) as (i & k & r1 & E & Hi).
  rewrite E. clear E.
  assert (Plain : exists q, Fin (inject_Z i * (10 # 1) ^ exponentPart r1) = Fin q
                            /\ 0 <= q).
  { eexists. split; [reflexivity | now apply decimal_value_nonneg]. }
  destruct r1 as [| d r2]; [exact Plain |].
  destruct d as [[] [] [] [] [] [] [] []]; try exact Plain.
  destruct (decimalDigits_acc r2 i 0%nat Hi) as [A _].
  destruct (decimalDigits r2 i 0) as [[m nm] r3]. cbn in A.
  eexists. split; [reflexivity | now apply decimal_value_nonneg].
Qed.

Lemma exec_seq {A B : Type} (c : Effect A) (k : Effect B) (st : AppState) :
  exec (c ;; k) st = exec k (exec c st).
Proof. unfold exec, bind. now destruct (c st). Qed.

(** ** The classifier *)

(** The two copies differ on the type "roi" only. *)
Lemma getBenchmarkStatus_agree (value : option number) (b : benchmark) (type : string) :
  type <> "roi" ->
  Part000.getBenchmarkStatus value b type = App.getBenchmarkStatus value b type.
Proof.
  intro N. unfold Part000.getBenchmarkStatus, App.getBenchmarkStatus.
  destruct value as [v |]; [| reflexivity].
  destruct (String.eqb type "roi") eqn:E.
  - apply String.eqb_eq in E. contradiction.
  - reflexivity.
Qed.

Lemma classifiers_agree classify (value : option number) (b : benchmark)
    (type : string) :
  In classify classifiers -> type <> "roi" ->
  classify value b type = App.getBenchmarkStatus value b type.
Proof.
  intros [<- | [<- | []]] N; [reflexivity | now apply getBenchmarkStatus_agree].
Qed.

(** The branches taken on a finite value under the benchmarks of [App]. *)
Lemma paybackPeriod_branch (v : Q) :
  App.getBenchmarkStatus (Some (Fin v)) benchmarks.paybackPeriod "paybackPeriod" =
  if Qle_bool v 5 then mkStatus "Excellent" "text-green-600"
  else if Qltb v 7 then mkStatus "Good" "text-yellow-600"
  else mkStatus "High Risk" "text-red-600".
Proof. reflexivity. Qed.

Lemma salesToInvestmentRatio_branch (v : Q) :
  App.getBenchmarkStatus (Some (Fin v)) benchmarks.salesToInvestmentRatio
    "salesToInvestmentRatio" =
  if Qltb 1.5 v then mkStatus "Meets Target" "text-green-600"
  else mkStatus "Below Target" "text-red-600".
Proof. reflexivity. Qed.

Lemma rentFactor_branch (v : Q) :
  App.getBenchmarkStatus (Some (Fin v)) benchmarks.rentFactor "rentFactor" =
  if Qltb v 10 then mkStatus "Meets Target" "text-green-600"
  else mkStatus "High" "text-red-600".
Proof. reflexivity. Qed.


(** C7. In both copies of the classifier, a [null] metric classifies as
    "N/A" (unknown), whatever the benchmark and the metric type. *)
Theorem absent_value_status (b : benchmark) (type : string) :
  forall classify, In classify classifiers ->
  classify None b type = mkStatus "N/A" "text-gray-500" /\
  classified (classify None b type) "N/A" unknown.
Proof.
  intros classify [<- | [<- | []]]; repeat split.
Qed.

Lemma absent_value_status_witness :
  In App.getBenchmarkStatus classifiers /\
  App.getBenchmarkStatus None benchmarks.paybackPeriod "rentFactor"
  = mkStatus "N/A" "text-gray-500".
Proof.
  split; [left; reflexivity |].
  apply (absent_value_status benchmarks.paybackPeriod "rentFactor"
           App.getBenchmarkStatus).
  left; reflexivity.
Defined.

(** *** ROI *)


(** *** Every value the code can store

    A stored metric is a double: a finite value, an infinity or [NaN]. *)

(** C3, as the spec states it, fails on [NaN], which the code stores as the
    payback period of [infiniteInputs64]: the status is "High Risk" although
    [NaN >= 7] is false. *)
Lemma paybackPeriod_NaN_high_risk :
  B64.paybackPeriod (B64.exec B64.calculateMetrics infiniteInputs64) = Some nan /\
  B64.App.getBenchmarkStatus
    (B64.paybackPeriod (B64.exec B64.calculateMetrics infiniteInputs64))
    B64.benchmarks.paybackPeriod "paybackPeriod"
  = mkStatus "High Risk" "text-red-600" /\
  (7 <=? nan)%float = false /\
  ~ (classified (App.getBenchmarkStatus (Some NaN) benchmarks.paybackPeriod
                   "paybackPeriod") "High Risk" bad
     <-> (lit 7 <=? NaN)%js = true).
Proof.
  split; [reflexivity |]. split; [reflexivity |]. split; [reflexivity |].
  intros [H _]. assert (K : (lit 7 <=? NaN)%js = true) by (apply H; now split).
  discriminate K.
Qed.

(** C3, amended. In both copies of the classifier, with the benchmark
    {ideal: 5, max: 7}: a finite payback period [v] is "Excellent" (good) iff
    [v <= 5], "Good" (warning) iff [5 < v < 7] and "High Risk" (bad) iff
    [7 <= v], so 5 is "Excellent" and 7 is "High Risk"; [-Infinity] is
    "Excellent" and [+Infinity] is "High Risk", as their order says; and
    [NaN], which compares false with everything, is "High Risk". *)
Theorem paybackPeriod_status (v : number) :
  forall classify, In classify classifiers ->
  let s := classify (Some v) benchmarks.paybackPeriod "paybackPeriod" in
  match v with
  | Fin q =>
      (classified s "Excellent" good <-> q <= 5) /\
      (classified s "Good" warning <-> 5 < q /\ q < 7) /\
      (classified s "High Risk" bad <-> 7 <= q)
  | Inf true => classified s "Excellent" good
  | Inf false => classified s "High Risk" bad
  | NaN => classified s "High Risk" bad
  end /\
  classified (classify (Some (lit 5)) benchmarks.paybackPeriod "paybackPeriod")
    "Excellent" good /\
  classified (classify (Some (lit 7)) benchmarks.paybackPeriod "paybackPeriod")
    "High Risk" bad.
Proof.
  intros classify Hc s. subst s.
  rewrite !(classifiers_agree classify _ _ _ Hc) by discriminate.
  split; [| split; split; reflexivity].
  destruct v as [| [] | q]; try (split; reflexivity).
  rewrite paybackPeriod_branch. unfold classified.
  destruct (Qle_bool q 5) eqn:E5;
    [apply Qle_bool_iff in E5 | apply Qle_bool_false in E5];
    [| destruct (Qltb q 7) eqn:E7;
       [apply Qltb_spec in E7 | apply Qltb_false in E7]];
    cbn; (split; [| split]); status_iff.
Qed.

Lemma paybackPeriod_status_witness :
  In App.getBenchmarkStatus classifiers /\
  (classified (App.getBenchmarkStatus (Some (Fin 6.999)) benchmarks.paybackPeriod
                 "paybackPeriod") "Good" warning
   <-> 5 < 6.999 /\ 6.999 < 7) /\
  classified (App.getBenchmarkStatus (Some (Inf false)) benchmarks.paybackPeriod
                "paybackPeriod") "High Risk" bad.
Proof.
  split; [left; reflexivity |]. split.
  - apply (paybackPeriod_status (Fin 6.999) App.getBenchmarkStatus).
    left; reflexivity.
  - apply (paybackPeriod_status (Inf false) App.getBenchmarkStatus).
    left; reflexivity.
Defined.

(** C6, as the spec states it, fails on [NaN], which the code stores as the
    sales-to-investment ratio of [infiniteInputs64]: the status is
    "Below Target" although [NaN <= 1.5] is false, and a [NaN] rent factor is
    "High" although [NaN >= 10] is false. *)
Lemma ratio_NaN_below_target :
  B64.salesToInvestmentRatio (B64.exec B64.calculateMetrics infiniteInputs64)
  = Some nan /\
  B64.App.getBenchmarkStatus
    (B64.salesToInvestmentRatio (B64.exec B64.calculateMetrics infiniteInputs64))
    B64.benchmarks.salesToInvestmentRatio "salesToInvestmentRatio"
  = mkStatus "Below Target" "text-red-600" /\
  (nan <=? 1.5)%float = false /\
  ~ (classified (App.getBenchmarkStatus (Some NaN) benchmarks.salesToInvestmentRatio
                   "salesToInvestmentRatio") "Below Target" bad
     <-> (NaN <=? Fin 1.5)%js = true) /\
  ~ (classified (App.getBenchmarkStatus (Some NaN) benchmarks.rentFactor
                   "rentFactor") "High" bad
     <-> (lit 10 <=? NaN)%js = true).
Proof.
  split; [reflexivity |]. split; [reflexivity |]. split; [reflexivity |].
  split; intros [H _];
    match type of H with
    | _ -> ?c = true => assert (K : c = true) by (apply H; now split)
    end; discriminate K.
Qed.

(** C6, amended. In both copies of the classifier, with the benchmarks 1.5
    and 10: a finite sales-to-investment ratio [v] is "Meets Target" (good)
    iff [v > 1.5] and "Below Target" (bad) iff [v <= 1.5]; a finite rent
    factor [v] is "Meets Target" (good) iff [v < 10] and "High" (bad) iff
    [v >= 10], so exactly 10 is "High"; the infinities are classified as their
    order says; and [NaN] is "Below Target" as a ratio and "High" as a rent
    factor. *)
Theorem ratio_and_rentFactor_status (v : number) :
  forall classify, In classify classifiers ->
  let s := classify (Some v) benchmarks.salesToInvestmentRatio
             "salesToInvestmentRatio" in
  let t := classify (Some v) benchmarks.rentFactor "rentFactor" in
  match v with
  | Fin q =>
      (classified s "Meets Target" good <-> 1.5 < q) /\
      (classified s "Below Target" bad <-> q <= 1.5) /\
      (classified t "Meets Target" good <-> q < 10) /\
      (classified t "High" bad <-> 10 <= q)
  | Inf false => classified s "Meets Target" good /\ classified t "High" bad
  | Inf true => classified s "Below Target" bad /\ classified t "Meets Target" good
  | NaN => classified s "Below Target" bad /\ classified t "High" bad
  end /\
  classified (classify (Some (lit 10)) benchmarks.rentFactor "rentFactor")
    "High" bad.
Proof.
  intros classify Hc s t. subst s t.
  rewrite !(classifiers_agree classify _ _ _ Hc) by discriminate.
  split; [| split; reflexivity].
  destruct v as [| [] | q]; try (split; split; reflexivity).
  rewrite salesToInvestmentRatio_branch, rentFactor_branch.
  unfold classified.
  destruct (Qltb 1.5 q) eqn:E1; [apply Qltb_spec in E1 | apply Qltb_false in E1];
    (destruct (Qltb q 10) eqn:E2; [apply Qltb_spec in E2 | apply Qltb_false in E2]);
    cbn; (split; [| split; [| split]]); status_iff.
Qed.

Lemma ratio_and_rentFactor_status_witness :
  In Part000.getBenchmarkStatus classifiers /\
  (classified (Part000.getBenchmarkStatus (Some (Fin 9.999)) benchmarks.rentFactor
                 "rentFactor") "Meets Target" good
   <-> 9.999 < 10) /\
  classified (Part000.getBenchmarkStatus (Some NaN) benchmarks.rentFactor
                "rentFactor") "High" bad.
Proof.
  split; [right; left; reflexivity |]. split.
  - apply (ratio_and_rentFactor_status (Fin 9.999) Part000.getBenchmarkStatus).
    right; left; reflexivity.
  - apply (ratio_and_rentFactor_status NaN Part000.getBenchmarkStatus).
    right; left; reflexivity.
Defined.



(** * Further properties of the code *)

(** ** [calculateMetrics] as a function of the inputs *)

(** X1. The callback computes from the four input strings only: whatever the
    metric cells held before is overwritten. *)
Theorem calculateMetrics_from_inputs (st1 st2 : AppState) :
  sameInputs st1 st2 ->
  exec calculateMetrics st1 = exec calculateMetrics st2.
Proof.
  intros (H1 & H2 & H3 & H4). rewrite !calculateMetrics_unfold. cbv zeta.
  now rewrite H1, H2, H3, H4.
Qed.

Lemma calculateMetrics_from_inputs_witness :
  sameInputs halfFilled (mkAppState "500000" "1500000" "" "120000"
                           None (Some NaN) None None) /\
  exec calculateMetrics halfFilled
  = exec calculateMetrics (mkAppState "500000" "1500000" "" "120000"
                             None (Some NaN) None None).
Proof.
  split; [repeat split |].
  apply (calculateMetrics_from_inputs halfFilled). repeat split.
Defined.

(** X2. Running the callback a second time changes nothing. *)
Theorem calculateMetrics_twice (st : AppState) :
  exec (calculateMetrics ;; calculateMetrics) st = exec calculateMetrics st.
Proof.
  unfold exec at 1, bind.
  destruct (calculateMetrics st) as [u st'] eqn:E.
  change (exec calculateMetrics st' = exec calculateMetrics st).
  replace st' with (exec calculateMetrics st) by (unfold exec; now rewrite E).
  apply calculateMetrics_idempotent.
Qed.

(** X3. The sales-to-investment ratio and the ROI share their guard: whatever the
    inputs, both are stored or both are [null]. *)
Theorem ratio_and_roi_together (st : AppState) :
  salesToInvestmentRatio (exec calculateMetrics st) = None <->
  roi (exec calculateMetrics st) = None.
Proof.
  rewrite calculateMetrics_unfold; cbv zeta.
  destruct (_ || _); cbn; [tauto |].
  destruct (_ >? _)%js; split; intro H; first [discriminate H | reflexivity].
Qed.

(** ** Relations between the metrics of finite inputs *)

Lemma Qltb_0_scale (k x y : Q) : 0 < k -> y == k * x -> Qltb 0 y = Qltb 0 x.
Proof.
  intros Pk E. destruct (Qltb 0 x) eqn:Ex.
  - apply Qltb_spec in Ex. apply Qltb_spec. rewrite E.
    now apply Qmult_lt_0_compat.
  - apply Qltb_false in Ex. apply Qltb_false. rewrite E.
    setoid_replace 0 with (k * 0) by ring.
    apply Qmult_le_l; assumption.
Qed.

Section MetricRelations.

Variables (st : AppState) (tic pans e arc : Q).

Hypothesis parse_tic : parseFloat (investmentCost st) = Fin tic.
Hypothesis parse_pans : parseFloat (annualNetSales st) = Fin pans.
Hypothesis parse_e : parseFloat (ebitdaPercentage st) = Fin e.
Hypothesis parse_arc : parseFloat (annualRentCam st) = Fin arc.

Local Abbreviation r := (exec calculateMetrics st).
Local Abbreviation pae := (projectedAnnualEbitda pans e).

(** X4. With a positive investment cost, the stored ROI is the stored
    sales-to-investment ratio times the EBITDA percentage. *)
Theorem roi_is_ratio_times_ebitda :
  0 < tic ->
  exists a c : Q,
    salesToInvestmentRatio r = Some (Fin a) /\ roi r = Some (Fin c) /\
    c == a * e.
Proof.
  intro Pt.
  rewrite (stored_salesToInvestmentRatio st tic pans e arc) by assumption.
  rewrite (stored_roi st tic pans e arc) by assumption.
  rewrite (Qltb_0_true tic Pt).
  exists (pans / tic), (pae / tic * 100). repeat split.
  unfold projectedAnnualEbitda. field. lra.
Qed.

End MetricRelations.

Lemma roi_is_ratio_times_ebitda_witness :
  (parseFloat (investmentCost sample) = Fin 500000 /\
   parseFloat (annualNetSales sample) = Fin 1500000 /\
   parseFloat (ebitdaPercentage sample) = Fin 12.5 /\
   parseFloat (annualRentCam sample) = Fin 120000 /\ 0 < 500000) /\
  exists a c : Q,
    salesToInvestmentRatio (exec calculateMetrics sample) = Some (Fin a) /\
    roi (exec calculateMetrics sample) = Some (Fin c) /\
    c == a * 12.5.
Proof.
  split; [repeat split |].
  apply (roi_is_ratio_times_ebitda sample 500000 1500000 12.5 120000);
    reflexivity.
Defined.

(** X5. Metrics do not depend on the unit of money: multiplying the investment
    cost, the net sales and the rent by the same positive factor leaves the
    four metrics as they were. *)
Theorem metrics_scale_invariant
    (st st' : AppState) (tic pans e arc tic' pans' e' arc' k : Q) :
  parseFloat (investmentCost st) = Fin tic ->
  parseFloat (annualNetSales st) = Fin pans ->
  parseFloat (ebitdaPercentage st) = Fin e ->
  parseFloat (annualRentCam st) = Fin arc ->
  parseFloat (investmentCost st') = Fin tic' ->
  parseFloat (annualNetSales st') = Fin pans' ->
  parseFloat (ebitdaPercentage st') = Fin e' ->
  parseFloat (annualRentCam st') = Fin arc' ->
  0 < k -> tic' == k * tic -> pans' == k * pans -> e' == e -> arc' == k * arc ->
  Forall2 metric_equiv (metricValues (exec calculateMetrics st'))
                       (metricValues (exec calculateMetrics st)).
Proof.
  intros Ht Hp He Ha Ht' Hp' He' Ha' Pk Et Ep Ee Ea.
  unfold metricValues.
  rewrite (stored_salesToInvestmentRatio st tic pans e arc),
    (stored_paybackPeriod st tic pans e arc), (stored_roi st tic pans e arc),
    (stored_rentFactor st tic pans e arc) by assumption.
  rewrite (stored_salesToInvestmentRatio st' tic' pans' e' arc'),
    (stored_paybackPeriod st' tic' pans' e' arc'),
    (stored_roi st' tic' pans' e' arc'),
    (stored_rentFactor st' tic' pans' e' arc') by assumption.
  assert (Epae : projectedAnnualEbitda pans' e'
                 == k * projectedAnnualEbitda pans e).
  { unfold projectedAnnualEbitda. rewrite Ep, Ee. field. }
  rewrite (Qltb_0_scale k tic tic' Pk Et), (Qltb_0_scale k pans pans' Pk Ep),
    (Qltb_0_scale k _ _ Pk Epae).
  repeat constructor.
  - destruct (Qltb 0 tic) eqn:G; [apply Qltb_spec in G | exact I].
    cbn. rewrite Et, Ep. field. split; lra.
  - destruct (Qltb 0 (projectedAnnualEbitda pans e)) eqn:G;
      [apply Qltb_spec in G | exact I].
    cbn. rewrite Et, Epae. field. split; lra.
  - destruct (Qltb 0 tic) eqn:G; [apply Qltb_spec in G | exact I].
    cbn. rewrite Et, Epae. field. split; lra.
  - destruct (Qltb 0 pans) eqn:G; [apply Qltb_spec in G | exact I].
    cbn. rewrite Ea, Ep. field. split; lra.
Qed.

Lemma metrics_scale_invariant_witness :
  Forall2 metric_equiv
    (metricValues (exec calculateMetrics
                     (mkAppState "5000" "15000" "12.50" "1200" None None None None)))
    (metricValues (exec calculateMetrics sample)).
Proof.
  apply (metrics_scale_invariant sample _ 500000 1500000 12.5 120000
           5000 15000 12.50 1200 (1 # 100));
    reflexivity.
Defined.

(** ** [stripCommas] and [handleChange] *)

Lemma stripCommas_no_comma (val : string) :
  ~ In ","%char (chars (App.stripCommas val)).
Proof.
  induction val as [| c rest IH]; cbn; [tauto |].
  destruct (Ascii.eqb_spec c ","%char) as [-> | N]; [exact IH |].
  cbn. intros [E | H]; [now apply N | now apply IH].
Qed.

Lemma stripCommas_fixed (val : string) :
  ~ In ","%char (chars val) -> App.stripCommas val = val.
Proof.
  induction val as [| c rest IH]; cbn; [reflexivity |].
  intro N. destruct (Ascii.eqb_spec c ","%char) as [-> | _].
  - exfalso. apply N. now left.
  - f_equal. apply IH. intro H. apply N. now right.
Qed.

(** X8. [stripCommas] leaves no comma, changes nothing else, and is the identity
    exactly on the texts without a comma; so stripping twice is stripping
    once. *)
Theorem stripCommas_spec (val : string) :
  ~ In ","%char (chars (App.stripCommas val)) /\
  chars (App.stripCommas val)
  = List.filter (fun c => negb (Ascii.eqb c ",")) (chars val) /\
  (App.stripCommas val = val <-> ~ In ","%char (chars val)) /\
  App.stripCommas (App.stripCommas val) = App.stripCommas val.
Proof.
  split; [apply stripCommas_no_comma |].
  split.
  { induction val as [| c rest IH]; cbn; [reflexivity |].
    destruct (Ascii.eqb c ","); cbn; [exact IH | now f_equal]. }
  split.
  - split; [| apply stripCommas_fixed].
    intro E. rewrite <- E. apply stripCommas_no_comma.
  - apply stripCommas_fixed, stripCommas_no_comma.
Qed.

Lemma isDigit_not_point (c : ascii) : App.isDigit c = true -> c <> "."%char.
Proof. intros H ->. discriminate H. Qed.

Lemma points_cons_digit (c : ascii) (rest : string) :
  App.isDigit c = true -> points (String c rest) = points rest.
Proof.
  intro D. unfold points, chars. cbn [list_ascii_of_string].
  apply count_occ_cons_neq. now apply isDigit_not_point.
Qed.

Lemma points_cons_point (rest : string) :
  points (String "." rest) = S (points rest).
Proof.
  unfold points, chars. cbn [list_ascii_of_string].
  now apply count_occ_cons_eq.
Qed.

Lemma allDigits_chars (s : string) :
  App.allDigits s = true ->
  Forall (fun c => App.isDigit c = true) (chars s) /\ points s = 0%nat.
Proof.
  induction s as [| c rest IH]; [now split |].
  cbn [App.allDigits]. intro H. apply andb_true_iff in H as [D R].
  destruct (IH R) as [F P].
  split; [now constructor | now rewrite points_cons_digit].
Qed.

(** What follows the leading digits decides the shape of the whole text. *)
Lemma dropDigits_chars (s : string) :
  match App.dropDigits s with
  | EmptyString => true
  | String d rest => Ascii.eqb d "." && App.allDigits rest
  end = true ->
  Forall (fun c => App.isDigit c = true \/ c = "."%char) (chars s) /\
  (points s <= 1)%nat.
Proof.
  induction s as [| c rest IH]; [split; [constructor | apply Nat.le_0_l] |].
  cbn [App.dropDigits]. destruct (App.isDigit c) eqn:D.
  - intro H. destruct (IH H) as [F P].
    split; [constructor; auto | now rewrite points_cons_digit].
  - intro H. apply andb_true_iff in H as [E R].
    apply Ascii.eqb_eq in E. subst c.
    destruct (allDigits_chars rest R) as [F P]. split.
    + constructor; [now right |].
      eapply Forall_impl; [| exact F]. cbn. auto.
    + rewrite points_cons_point, P. apply Nat.le_refl.
Qed.

Lemma decimalPattern_chars (raw : string) :
  App.decimalPattern raw = true ->
  Forall (fun c => App.isDigit c = true \/ c = "."%char) (chars raw) /\
  (points raw <= 1)%nat /\
  (forall c rest, raw = String c rest -> App.isDigit c = true).
Proof.
  destruct raw as [| c rest].
  - intros _. repeat split; [constructor | apply Nat.le_0_l | discriminate].
  - intro H. unfold App.decimalPattern in H. apply andb_true_iff in H as [D R].
    destruct (dropDigits_chars _ R) as [F P].
    repeat split; [exact F | exact P |]. now intros c' rest' [= <- <-].
Qed.

(** The result of [handleChange] on an input with unit "$" or "%". *)
Lemma handleChange_filteredUnit (unit incoming : string) :
  filteredUnit unit ->
  App.handleChange unit incoming =
  if App.decimalPattern (App.stripCommas incoming)
  then Some (App.stripCommas incoming) else None.
Proof.
  assert (G : forall r, String.eqb r "" || App.decimalPattern r
                        = App.decimalPattern r).
  { intro r. destruct (String.eqb_spec r "") as [-> | _]; reflexivity. }
  intros [-> | ->]; unfold App.handleChange; cbn; now rewrite G.
Qed.

Lemma handleChange_decimalPattern (unit incoming raw : string) :
  filteredUnit unit -> App.handleChange unit incoming = Some raw ->
  raw = App.stripCommas incoming /\ App.decimalPattern raw = true.
Proof.
  intros U. rewrite (handleChange_filteredUnit unit incoming U).
  destruct (App.decimalPattern _) eqn:E; [| discriminate].
  intros [= <-]. now split.
Qed.

(** X9. On an input with unit "$" or "%", the text [handleChange] passes on is
    the typed text without its commas, made of digits and at most one decimal
    point, and it does not start with the point: no sign, no letter, no
    exponent gets through. *)
Theorem handleChange_passes_decimals (unit incoming raw : string) :
  filteredUnit unit ->
  App.handleChange unit incoming = Some raw ->
  raw = App.stripCommas incoming /\
  Forall (fun c => App.isDigit c = true \/ c = "."%char) (chars raw) /\
  (points raw <= 1)%nat /\
  (forall c rest, raw = String c rest -> App.isDigit c = true).
Proof.
  intros U H. destruct (handleChange_decimalPattern unit incoming raw U H)
    as [E P].
  split; [exact E | now apply decimalPattern_chars].
Qed.

Lemma handleChange_passes_decimals_witness :
  filteredUnit "$" /\
  App.handleChange "$" "1,500,000.50" = Some "1500000.50" /\
  (points "1500000.50" <= 1)%nat.
Proof.
  split; [now left |]. split; [reflexivity |].
  apply (handleChange_passes_decimals "$" "1,500,000.50" "1500000.50");
    [now left | reflexivity].
Defined.

(** X10. A text that has passed the filter passes it again, unchanged: the value
    kept in the state can be fed back to the input. *)
Theorem handleChange_stable (unit incoming raw : string) :
  filteredUnit unit ->
  App.handleChange unit incoming = Some raw ->
  App.handleChange unit raw = Some raw.
Proof.
  intros U H. destruct (handleChange_decimalPattern unit incoming raw U H)
    as [E P].
  rewrite (handleChange_filteredUnit unit raw U).
  assert (S : App.stripCommas raw = raw).
  { rewrite E. apply stripCommas_fixed, stripCommas_no_comma. }
  now rewrite S, P.
Qed.

Lemma handleChange_stable_witness :
  filteredUnit "%" /\
  App.handleChange "%" "1,2.5" = Some "12.5" /\
  App.handleChange "%" "12.5" = Some "12.5".
Proof.
  split; [now right |]. split; [reflexivity |].
  apply (handleChange_stable "%" "1,2.5" "12.5"); [now right | reflexivity].
Defined.

(** ** Change events of [App] *)

Lemma inputOf_calculateMetrics (g : App.field) (st : AppState) :
  inputOf g (exec calculateMetrics st) = inputOf g st.
Proof.
  destruct (calculateMetrics_inputs st) as (H1 & H2 & H3 & H4).
  destruct g; assumption.
Qed.

(** X12. A change event writes at most the input it is on: a text the filter
    rejects leaves the whole state as it was, an accepted one is stored
    without its commas, and the other three inputs are never touched. *)
Theorem change_writes_one_input (f : App.field) (incoming : string) (st : AppState) :
  (App.handleChange (App.unit_of f) incoming = None ->
   exec (App.change f incoming) st = st) /\
  (forall raw, App.handleChange (App.unit_of f) incoming = Some raw ->
   inputOf f (exec (App.change f incoming) st) = raw) /\
  (forall g, g <> f ->
   inputOf g (exec (App.change f incoming) st) = inputOf g st).
Proof.
  unfold App.change.
  destruct (App.handleChange (App.unit_of f) incoming) as [raw |].
  - split; [discriminate |]. rewrite exec_seq. split.
    + intros raw' [= <-]. rewrite inputOf_calculateMetrics. now destruct f.
    + intros g N. rewrite inputOf_calculateMetrics.
      destruct f, g; first [reflexivity | now elim N].
  - split; [reflexivity |]. split; [discriminate | reflexivity].
Qed.

(** X13. Emptying any one input (typing nothing, or commas only) sets all four
    metrics to [null], whatever the other inputs hold. *)
Theorem change_to_empty_clears_metrics
    (f : App.field) (incoming : string) (st : AppState) :
  App.stripCommas incoming = "" ->
  metricValues (exec (App.change f incoming) st) = [None; None; None; None].
Proof.
  intro E. unfold App.change.
  rewrite (handleChange_filteredUnit (App.unit_of f) incoming)
    by (destruct f; [left | left | right | left]; reflexivity).
  rewrite E. cbn [App.decimalPattern]. rewrite exec_seq.
  rewrite calculateMetrics_gate; [reflexivity |].
  destruct f; cbn; repeat rewrite orb_true_r; reflexivity.
Qed.

Lemma change_to_empty_clears_metrics_witness :
  App.stripCommas ",," = "" /\
  metricValues (exec (App.change App.EbitdaPercentage ",,") typedSample)
  = [None; None; None; None].
Proof.
  split; [reflexivity |].
  apply (change_to_empty_clears_metrics App.EbitdaPercentage ",," typedSample).
  reflexivity.
Defined.

(** ** The classifier beyond the benchmarks of [App] *)

Lemma getBenchmarkStatus_present_Part000 (v : number) (b : benchmark)
    (type : string) :
  text (Part000.getBenchmarkStatus (Some v) b type) <> "N/A".
Proof.
  unfold Part000.getBenchmarkStatus.
  repeat match goal with
         | |- context [if ?c then _ else _] => destruct c
         end; cbn; discriminate.
Qed.

(** X16. In both copies the status is "N/A" exactly when the value is [null]:
    the label and the value shown as "N/A" go together. *)
Theorem status_NA_iff_null (value : option number) (b : benchmark) (type : string) :
  (text (App.getBenchmarkStatus value b type) = "N/A" <-> value = None) /\
  (text (Part000.getBenchmarkStatus value b type) = "N/A" <-> value = None).
Proof.
  destruct value as [v |].
  - split; (split; [intro H | discriminate]); exfalso; revert H;
      [apply getBenchmarkStatus_present
      | apply getBenchmarkStatus_present_Part000].
  - split; split; reflexivity.
Qed.

(** X17. A stored value of a type the classifier has no case for gets the empty
    status, and only such a type does: in src/src/App.jsx the types with a
    case are the three displayed ones, in the other copy also "roi". *)
Theorem unknown_type_empty_status (v : number) (b : benchmark) (type : string) :
  (App.getBenchmarkStatus (Some v) b type = mkStatus "" "" <->
   ~ In type ["salesToInvestmentRatio"; "paybackPeriod"; "rentFactor"]) /\
  (Part000.getBenchmarkStatus (Some v) b type = mkStatus "" "" <->
   ~ In type ["salesToInvestmentRatio"; "paybackPeriod"; "roi"; "rentFactor"]).
Proof.
  unfold App.getBenchmarkStatus, Part000.getBenchmarkStatus.
  destruct (String.eqb_spec type "salesToInvestmentRatio") as [-> | N1].
  { split; (split; [| intro H; elim H; cbn; tauto]);
      cbn; destruct (_ >? _)%js; discriminate. }
  destruct (String.eqb_spec type "paybackPeriod") as [-> | N2].
  { split; (split; [| intro H; elim H; cbn; tauto]);
      cbn; destruct (_ <=? _)%js; try discriminate;
      destruct (_ <? _)%js; discriminate. }
  destruct (String.eqb_spec type "rentFactor") as [-> | N3].
  { split; (split; [| intro H; elim H; cbn; tauto]);
      cbn; destruct (_ <? _)%js; discriminate. }
  split.
  - split; [intros _ | reflexivity].
    cbn. intros [E | [E | [E | []]]]; congruence.
  - destruct (String.eqb_spec type "roi") as [-> | N4].
    + split; [| intro H; elim H; cbn; tauto].
      destruct (_ >? _)%js; discriminate.
    + split; [intros _ | reflexivity].
      cbn. intros [E | [E | [E | [E | []]]]]; congruence.
Qed.

Lemma threshold_branches (v b : Q) :
  App.getBenchmarkStatus (Some (Fin v)) (BNumber (Fin b)) "salesToInvestmentRatio"
  = (if Qltb b v then mkStatus "Meets Target" "text-green-600"
     else mkStatus "Below Target" "text-red-600") /\
  App.getBenchmarkStatus (Some (Fin v)) (BNumber (Fin b)) "rentFactor"
  = (if Qltb v b then mkStatus "Meets Target" "text-green-600"
     else mkStatus "High" "text-red-600") /\
  Part000.getBenchmarkStatus (Some (Fin v)) (BNumber (Fin b)) "roi"
  = (if Qltb b v then mkStatus "Meets Target" "text-green-600"
     else mkStatus "Below Target" "text-red-600").
Proof. repeat split. Qed.

Lemma range_branch (v i m : Q) :
  App.getBenchmarkStatus (Some (Fin v)) (BRange (Fin i) (Fin m)) "paybackPeriod" =
  if Qle_bool v i then mkStatus "Excellent" "text-green-600"
  else if Qltb v m then mkStatus "Good" "text-yellow-600"
  else mkStatus "High Risk" "text-red-600".
Proof. reflexivity. Qed.

(** X18. With any finite thresholds [ideal] and [max] in place of 5 and 7, both
    copies label a finite payback period [v] "Excellent" iff [v <= ideal],
    "Good" iff [ideal < v < max], and "High Risk" iff [v] is above [ideal] and
    at least [max]; when [max <= ideal] nothing is "Good". *)
Theorem paybackPeriod_thresholds (v ideal max : Q) :
  forall classify, In classify classifiers ->
  let s := classify (Some (Fin v)) (BRange (Fin ideal) (Fin max)) "paybackPeriod" in
  (classified s "Excellent" good <-> v <= ideal) /\
  (classified s "Good" warning <-> ideal < v /\ v < max) /\
  (classified s "High Risk" bad <-> ideal < v /\ max <= v) /\
  (max <= ideal -> ~ classified s "Good" warning).
Proof.
  intros classify Hc s. subst s.
  rewrite (classifiers_agree classify _ _ _ Hc) by discriminate.
  rewrite range_branch. unfold classified.
  destruct (Qle_bool v ideal) eqn:E5;
    [apply Qle_bool_iff in E5 | apply Qle_bool_false in E5];
    [| destruct (Qltb v max) eqn:E7;
       [apply Qltb_spec in E7 | apply Qltb_false in E7]];
    cbn; (split; [| split; [| split]]); try status_iff;
    intros L [K _]; first [discriminate K | lra].
Qed.

Lemma paybackPeriod_thresholds_witness :
  In Part000.getBenchmarkStatus classifiers /\
  (classified (Part000.getBenchmarkStatus (Some (Fin 3.5)) (BRange (Fin 3) (Fin 4))
                 "paybackPeriod") "Good" warning
   <-> 3 < 3.5 /\ 3.5 < 4).
Proof.
  split; [right; left; reflexivity |].
  apply (paybackPeriod_thresholds 3.5 3 4 Part000.getBenchmarkStatus).
  right; left; reflexivity.
Defined.

(** X19. With any finite benchmark [b]: a finite sales-to-investment ratio [v] is
    "Meets Target" iff [v > b], else "Below Target"; a finite rent factor is
    "Meets Target" iff [v < b], else "High"; in both copies.  The copy with an
    ROI case labels a finite ROI like the ratio. *)
Theorem number_benchmark_thresholds (v b : Q) :
  (forall classify, In classify classifiers ->
   let s := classify (Some (Fin v)) (BNumber (Fin b)) "salesToInvestmentRatio" in
   let t := classify (Some (Fin v)) (BNumber (Fin b)) "rentFactor" in
   (classified s "Meets Target" good <-> b < v) /\
   (classified s "Below Target" bad <-> v <= b) /\
   (classified t "Meets Target" good <-> v < b) /\
   (classified t "High" bad <-> b <= v)) /\
  let u := Part000.getBenchmarkStatus (Some (Fin v)) (BNumber (Fin b)) "roi" in
  (classified u "Meets Target" good <-> b < v) /\
  (classified u "Below Target" bad <-> v <= b).
Proof.
  destruct (threshold_branches v b) as (B1 & B2 & B3).
  split.
  - intros classify Hc s t. subst s t.
    rewrite !(classifiers_agree classify _ _ _ Hc) by discriminate.
    rewrite B1, B2. unfold classified.
    destruct (Qltb b v) eqn:E1; [apply Qltb_spec in E1 | apply Qltb_false in E1];
      (destruct (Qltb v b) eqn:E2;
       [apply Qltb_spec in E2 | apply Qltb_false in E2]);
      cbn; (split; [| split; [| split]]); status_iff.
  - intro u. subst u. rewrite B3. unfold classified.
    destruct (Qltb b v) eqn:E1; [apply Qltb_spec in E1 | apply Qltb_false in E1];
      cbn; split; status_iff.
Qed.

(** X20. A comparison with [NaN] is false, so a [NaN] value, or a benchmark of the
    wrong shape (an object where a number is expected, a number where the
    object is), never gets a good status: both copies fall to "Below Target",
    "High Risk" and "High". *)
Theorem nan_never_meets_target (v : number) (b : benchmark) :
  forall classify, In classify classifiers ->
  (v = NaN \/ Benchmark.toNumber b = NaN ->
   classify (Some v) b "salesToInvestmentRatio"
   = mkStatus "Below Target" "text-red-600" /\
   classify (Some v) b "rentFactor" = mkStatus "High" "text-red-600") /\
  (v = NaN \/ (Benchmark.ideal b = NaN /\ Benchmark.max b = NaN) ->
   classify (Some v) b "paybackPeriod" = mkStatus "High Risk" "text-red-600").
Proof.
  intros classify Hc.
  rewrite !(classifiers_agree classify _ _ _ Hc) by discriminate.
  unfold App.getBenchmarkStatus. cbn [String.eqb Ascii.eqb Bool.eqb].
  split.
  - intros [-> | ->]; [now destruct (Benchmark.toNumber b) | now destruct v].
  - intros [-> | [-> ->]];
      [now destruct (Benchmark.ideal b), (Benchmark.max b) | now destruct v].
Qed.

Lemma nan_never_meets_target_witness :
  In App.getBenchmarkStatus classifiers /\
  App.getBenchmarkStatus (Some (lit 3)) benchmarks.paybackPeriod
    "salesToInvestmentRatio"
  = mkStatus "Below Target" "text-red-600".
Proof.
  split; [left; reflexivity |].
  apply (nan_never_meets_target (lit 3) benchmarks.paybackPeriod
           App.getBenchmarkStatus); [left; reflexivity | right; reflexivity].
Defined.

(** ** Infinite inputs *)



(** * The code on binary64 *)

(** ** Rounding

    The specification of the binary64 operations rounds an integer mantissa
    with [binary_round_aux]; what follows only needs the shape of its
    result. *)

Lemma shr_1_nonneg (mrs : shr_record) : nonneg_m mrs -> nonneg_m (shr_1 mrs).
Proof.
  destruct mrs as [m r s]. unfold nonneg_m. cbn.
  destruct m as [| [p | p |] | p]; cbn; intro H; lia.
Qed.

Lemma iter_pos_nonneg (p : positive) :
  forall mrs, nonneg_m mrs -> nonneg_m (iter_pos shr_1 p mrs).
Proof.
  induction p as [p IH | p IH |]; intros mrs H; cbn.
  - apply IH, IH, shr_1_nonneg, H.
  - apply IH, IH, H.
  - apply shr_1_nonneg, H.
Qed.

Lemma shr_fexp_nonneg (m e : Z) (l : location) :
  (0 <= m)%Z -> nonneg_m (fst (shr_fexp prec emax m e l)).
Proof.
  intro H. unfold shr_fexp, shr.
  assert (N : nonneg_m (shr_record_of_loc m l)).
  { unfold nonneg_m. destruct l as [| []]; exact H. }
  destruct (_ - e)%Z; cbn; [exact N | now apply iter_pos_nonneg | exact N].
Qed.

Lemma round_nearest_even_nonneg (m : Z) (l : location) :
  (0 <= m)%Z -> (0 <= round_nearest_even m l)%Z.
Proof.
  intro H. destruct l as [| []]; cbn; try lia.
  destruct (Z.even m); lia.
Qed.

(** Rounding a non-negative mantissa gives a zero, a finite value or an
    infinity of the sign asked for, never [NaN]. *)
Lemma binary_round_aux_signed (s : bool) (m e : Z) (l : location) :
  (0 <= m)%Z -> signed s (binary_round_aux prec emax s m e l).
Proof.
  intro H. unfold binary_round_aux.
  pose proof (shr_fexp_nonneg m e l H) as N1.
  destruct (shr_fexp prec emax m e l) as [mrs' e']. cbn in N1.
  pose proof (shr_fexp_nonneg _ e' loc_Exact
                (round_nearest_even_nonneg _ (loc_of_shr_record mrs') N1)) as N2.
  destruct (shr_fexp prec emax _ e' loc_Exact) as [mrs'' e'']. cbn in N2.
  unfold nonneg_m in N2.
  destruct (shr_m mrs'') as [| p | p]; cbn; [reflexivity | | lia].
  destruct (_ <=? _)%Z; reflexivity.
Qed.

Lemma binary_round_signed (s : bool) (m : positive) (e : Z) :
  signed s (binary_round prec emax s m e).
Proof.
  unfold binary_round. destruct (shl_align m e _) as [mz ez].
  apply binary_round_aux_signed. lia.
Qed.

Lemma SFdiv_core_nonneg (m1 m2 : positive) (e1 e2 : Z) :
  (0 <= fst (fst (SFdiv_core_binary prec emax (Zpos m1) e1 (Zpos m2) e2)))%Z.
Proof.
  unfold SFdiv_core_binary.
  set (s := (_ - _ - _)%Z).
  set (m' := match s with
             | Zpos _ => Z.shiftl (Zpos m1) s
             | Z0 => Zpos m1
             | Zneg _ => 0%Z
             end).
  assert (Hm : (0 <= m')%Z).
  { subst m'. destruct s; try lia. apply Z.shiftl_nonneg. lia. }
  pose proof (Z_div_mod m' (Zpos m2) eq_refl) as D.
  destruct (Z.div_eucl m' (Zpos m2)) as [q r]. cbn.
  destruct D as [E B]. nia.
Qed.

(** Products and quotients: [NaN], or the exclusive or of the signs. *)
Lemma SFmul_signed (s t : bool) (x y : spec_float) :
  signed s x -> signed t y ->
  SFmul prec emax x y = S754_nan \/ signed (xorb s t) (SFmul prec emax x y).
Proof.
  destruct x as [sx | sx | | sx mx ex]; destruct y as [sy | sy | | sy my ey];
    cbn; intros Hx Hy; try contradiction; subst; auto.
  right. apply binary_round_aux_signed. lia.
Qed.

Lemma SFdiv_signed (s t : bool) (x y : spec_float) :
  signed s x -> signed t y ->
  SFdiv prec emax x y = S754_nan \/ signed (xorb s t) (SFdiv prec emax x y).
Proof.
  destruct x as [sx | sx | | sx mx ex]; destruct y as [sy | sy | | sy my ey];
    cbn; intros Hx Hy; try contradiction; subst; auto.
  right. pose proof (SFdiv_core_nonneg mx my ex ey) as N.
  destruct (SFdiv_core_binary prec emax (Zpos mx) ex (Zpos my) ey) as [[mz ez] lz].
  cbn in N. now apply binary_round_aux_signed.
Qed.

(** A zero or finite value divided by a finite non-zero value is not
    [NaN]. *)
Lemma SFdiv_finite_finite (x y : spec_float) (t : bool) (my : positive) (ey : Z) :
  finite_sf x -> y = S754_finite t my ey ->
  exists s, signed s (SFdiv prec emax x y) /\
            (forall u, signed u x -> s = xorb u t).
Proof.
  intros F ->. destruct x as [sx | sx | | sx mx ex]; cbn in F; try contradiction.
  - exists (xorb sx t). cbn. split; [reflexivity | now intros u <-].
  - exists (xorb sx t). split; [| now intros u <-].
    destruct (SFdiv_signed sx t (S754_finite sx mx ex) (S754_finite t my ey)
                eq_refl eq_refl) as [E | S]; [| exact S].
    exfalso. cbn in E.
    pose proof (SFdiv_core_nonneg mx my ex ey) as N.
    destruct (SFdiv_core_binary prec emax (Zpos mx) ex (Zpos my) ey)
      as [[mz ez] lz].
    cbn in N. pose proof (binary_round_aux_signed (xorb sx t) mz ez lz N) as S.
    rewrite E in S. exact S.
Qed.

(** ** Comparisons with zero and [isNaN] *)

Lemma Prim2SF_0 : Prim2SF 0 = S754_zero false.
Proof. reflexivity. Qed.

Lemma Prim2SF_100 : exists m e, Prim2SF 100 = S754_finite false m e.
Proof. do 2 eexists. reflexivity. Qed.

Lemma Prim2SF_5 : exists m e, Prim2SF 5 = S754_finite false m e.
Proof. do 2 eexists. reflexivity. Qed.

Lemma SFcompare_refl (x : spec_float) :
  x <> S754_nan -> SFcompare x x = Some Eq.
Proof.
  destruct x as [s | s | | s m e]; cbn; intro N; try congruence.
  - now destruct s.
  - rewrite Z.compare_refl, Pos.compare_cont_refl. now destruct s.
Qed.

Lemma is_nan_true (x : float) : is_nan x = true <-> Prim2SF x = S754_nan.
Proof.
  unfold is_nan. rewrite FloatAxioms.eqb_spec. unfold SFeqb.
  destruct (Prim2SF x) as [s | s | | s m e] eqn:E.
  all: try (rewrite SFcompare_refl by discriminate; cbn; split; discriminate).
  cbn. split; reflexivity.
Qed.

Lemma is_nan_false (x : float) : is_nan x = false <-> Prim2SF x <> S754_nan.
Proof.
  rewrite <- is_nan_true. destruct (is_nan x); split; congruence.
Qed.

Lemma is_finite_sf (x : float) : is_finite x = true -> finite_sf (Prim2SF x).
Proof.
  unfold is_finite. rewrite negb_true_iff, orb_false_iff. intros [N I].
  apply is_nan_false in N. unfold is_infinity in I.
  rewrite FloatAxioms.eqb_spec, abs_spec in I.
  change (Prim2SF infinity) with (S754_infinity false) in I.
  destruct (Prim2SF x) as [s | s | | s m e]; cbn in *;
    try exact Logic.I; congruence.
Qed.

Lemma is_finite_not_nan (x : float) : is_finite x = true -> is_nan x = false.
Proof.
  unfold is_finite. rewrite negb_true_iff, orb_false_iff. now intros [N _].
Qed.

Lemma ltb_0_iff (x : float) : (0 <? x)%float = true <-> positive_sf (Prim2SF x).
Proof.
  rewrite FloatAxioms.ltb_spec, Prim2SF_0. unfold SFltb.
  destruct (Prim2SF x) as [s | [] | | [] m e]; cbn; split;
    try discriminate; tauto.
Qed.

Lemma ltb_x_0_iff (x : float) : (x <? 0)%float = true <-> negative_sf (Prim2SF x).
Proof.
  rewrite FloatAxioms.ltb_spec, Prim2SF_0. unfold SFltb.
  destruct (Prim2SF x) as [s | [] | | [] m e]; cbn; split;
    try discriminate; tauto.
Qed.

Lemma eqb_0_iff (x : float) : (x =? 0)%float = true <-> is_zero_sf (Prim2SF x).
Proof.
  rewrite FloatAxioms.eqb_spec, Prim2SF_0. unfold SFeqb.
  destruct (Prim2SF x) as [s | [] | | [] m e]; cbn; split;
    try discriminate; tauto.
Qed.

Lemma leb_0_iff (x : float) : (x <=? 0)%float = true <-> nonpositive_sf (Prim2SF x).
Proof.
  rewrite FloatAxioms.leb_spec, Prim2SF_0. unfold SFleb.
  destruct (Prim2SF x) as [s | [] | | [] m e]; cbn; split;
    try discriminate; tauto.
Qed.

(** Zero or less is not more than zero, and is at most 5. *)
Lemma leb_0_not_positive (x : float) :
  (x <=? 0)%float = true -> (0 <? x)%float = false.
Proof.
  intro H. apply leb_0_iff in H.
  destruct (0 <? x)%float eqn:E; [| reflexivity].
  apply ltb_0_iff in E. destruct (Prim2SF x) as [s | [] | | [] m e]; contradiction.
Qed.

Lemma leb_0_leb_5 (x : float) : (x <=? 0)%float = true -> (x <=? 5)%float = true.
Proof.
  intro H. apply leb_0_iff in H. rewrite FloatAxioms.leb_spec.
  destruct Prim2SF_5 as (m5 & e5 & ->). unfold SFleb.
  destruct (Prim2SF x) as [s | [] | | [] m e]; try contradiction; reflexivity.
Qed.

(** A value with the sign bit clear is zero or more than zero. *)
Lemma signed_false_cases (x : float) :
  signed false (Prim2SF x) -> (0 <? x)%float = true \/ (x =? 0)%float = true.
Proof.
  intro S. rewrite ltb_0_iff, eqb_0_iff.
  destruct (Prim2SF x) as [s | s | | s m e]; cbn in S; try contradiction;
    subst; cbn; tauto.
Qed.

Lemma unsigned64_not_negative (x : float) :
  unsigned64 x -> (x <? 0)%float = false.
Proof.
  intros [N | S]; destruct (x <? 0)%float eqn:E; try reflexivity;
    apply ltb_x_0_iff in E.
  - now rewrite N in E.
  - destruct (Prim2SF x) as [s | s | | s m e]; cbn in S, E; try contradiction;
      subst; contradiction.
Qed.

(** Dividing a finite number by 100 does not give [NaN]: finite inputs open
    the gate of [calculateMetrics]. *)
Lemma is_nan_div_100 (x : float) :
  is_finite x = true -> is_nan (x / 100)%float = false.
Proof.
  intro F. apply is_finite_sf in F. apply is_nan_false.
  rewrite div_spec. destruct Prim2SF_100 as (m & e & E).
  destruct (SFdiv_finite_finite (Prim2SF x) (Prim2SF 100) false m e F E)
    as (s & S & _).
  unfold SF64div. intro K. rewrite K in S. exact S.
Qed.

(** Products and quotients of [NaN]s and values with the sign bit clear are
    of the same kind. *)
Lemma unsigned64_mul (x y : float) :
  unsigned64 x -> unsigned64 y -> unsigned64 (x * y)%float.
Proof.
  unfold unsigned64. rewrite mul_spec. unfold SF64mul.
  intros [-> | Sx]; [now left |].
  intros [-> | Sy]; [left; now destruct (Prim2SF x) |].
  exact (SFmul_signed false false _ _ Sx Sy).
Qed.

Lemma unsigned64_div (x y : float) :
  unsigned64 x -> unsigned64 y -> unsigned64 (x / y)%float.
Proof.
  unfold unsigned64. rewrite div_spec. unfold SF64div.
  intros [-> | Sx]; [now left |].
  intros [-> | Sy]; [left; now destruct (Prim2SF x) |].
  exact (SFdiv_signed false false _ _ Sx Sy).
Qed.

Lemma unsigned64_100 : unsigned64 100.
Proof. right. destruct Prim2SF_100 as (m & e & ->). reflexivity. Qed.

(** ** [parseFloat] on filtered text *)

Lemma SFldexp_signed (s : bool) (x : spec_float) (e : Z) :
  signed s x -> signed s (SFldexp prec emax x e).
Proof.
  destruct x as [t | t | | t m ex]; cbn; intro H; try exact H.
  subst t. apply binary_round_signed.
Qed.

Lemma of_uint63_signed (n : PrimInt63.int) : signed false (Prim2SF (of_uint63 n)).
Proof.
  rewrite of_uint63_spec. unfold binary_normalize.
  pose proof (Uint63.to_Z_bounded n) as [B _].
  destruct (Uint63Axioms.to_Z n) as [| p | p]; [reflexivity | | lia].
  apply binary_round_signed.
Qed.

Lemma SF2Prim_signed (x : spec_float) :
  signed false x -> signed false (Prim2SF (SF2Prim x)).
Proof.
  destruct x as [t | t | | t m e]; cbn [signed]; intro H; try contradiction;
    subst t.
  - reflexivity.
  - reflexivity.
  - unfold SF2Prim, Z.ldexp. rewrite ldshiftexp_spec.
    apply SFldexp_signed, of_uint63_signed.
Qed.

(** Rounding a non-negative rational gives neither [NaN] nor a set sign
    bit. *)
Lemma ofQ_signed (q : Q) : 0 <= q -> signed false (Prim2SF (B64.ofQ q)).
Proof.
  intro H. unfold B64.ofQ. destruct q as [n d]. cbn [Qnum Qden].
  destruct n as [| n | n].
  - reflexivity.
  - apply SF2Prim_signed.
    destruct (SFdiv_finite_finite (S754_finite false n 0) (S754_finite false d 0)
                false d 0 Logic.I eq_refl) as (s & S & U).
    now rewrite (U false eq_refl) in S.
  - exfalso. unfold Qle in H. cbn in H. lia.
Qed.

(** On a text that starts with a digit the builtin rounds the value read. *)
Lemma parseFloat64_leading_digit (c : ascii) (rest : string) :
  App.isDigit c = true ->
  B64.parseFloat (String c rest) = B64.ofNumber (parseFloat (String c rest)).
Proof.
  destruct c as [[] [] [] [] [] [] [] []];
    first [discriminate | intros _; reflexivity].
Qed.

(** A text the filter lets through is empty, or the builtin reads from it a
    number that is not [NaN] and has the sign bit clear. *)
Lemma decimalPattern_parse64 (raw : string) :
  App.decimalPattern raw = true ->
  raw = "" \/ signed false (Prim2SF (B64.parseFloat raw)).
Proof.
  destruct raw as [| c rest]; [now left |].
  intro H. right. unfold App.decimalPattern in H.
  apply andb_true_iff in H as [D _].
  rewrite (parseFloat64_leading_digit c rest D).
  destruct (parseFloat_leading_digit c rest D) as (q & -> & N).
  now apply ofQ_signed.
Qed.

(** ** What [calculateMetrics] writes, in binary64 *)

Lemma calculateMetrics64_unfold (st : B64.AppState) :
  B64.exec B64.calculateMetrics st =
  let tic := B64.parseFloat (B64.investmentCost st) in
  let pans := B64.parseFloat (B64.annualNetSales st) in
  let ebitdaPct := (B64.parseFloat (B64.ebitdaPercentage st) / 100)%float in
  let arc := B64.parseFloat (B64.annualRentCam st) in
  let pae := (pans * ebitdaPct)%float in
  if is_nan tic || is_nan pans || is_nan ebitdaPct || is_nan arc
  then B64.mkAppState (B64.investmentCost st) (B64.annualNetSales st)
         (B64.ebitdaPercentage st) (B64.annualRentCam st) None None None None
  else B64.mkAppState (B64.investmentCost st) (B64.annualNetSales st)
         (B64.ebitdaPercentage st) (B64.annualRentCam st)
         (if (0 <? tic)%float then Some (pans / tic)%float else None)
         (if (0 <? pae)%float then Some (tic / pae)%float else None)
         (if (0 <? tic)%float then Some (pae / tic * 100)%float else None)
         (if (0 <? pans)%float then Some (arc / pans * 100)%float else None).
Proof.
  unfold B64.exec, B64.calculateMetrics, B64.bind, B64.get.
  cbv beta iota zeta.
  destruct (_ || _); reflexivity.
Qed.

Lemma calculateMetrics64_inputs (f : App.field) (st : B64.AppState) :
  B64.inputOf f (B64.exec B64.calculateMetrics st) = B64.inputOf f st.
Proof.
  rewrite calculateMetrics64_unfold; cbv zeta.
  destruct (_ || _); now destruct f.
Qed.

Lemma calculateMetrics64_idempotent (st : B64.AppState) :
  B64.exec B64.calculateMetrics (B64.exec B64.calculateMetrics st)
  = B64.exec B64.calculateMetrics st.
Proof.
  pose proof (calculateMetrics64_inputs App.InvestmentCost st) as H1.
  pose proof (calculateMetrics64_inputs App.AnnualNetSales st) as H2.
  pose proof (calculateMetrics64_inputs App.EbitdaPercentage st) as H3.
  pose proof (calculateMetrics64_inputs App.AnnualRentCam st) as H4.
  cbn [B64.inputOf] in H1, H2, H3, H4.
  rewrite (calculateMetrics64_unfold (B64.exec B64.calculateMetrics st)).
  rewrite H1, H2, H3, H4. symmetry. apply calculateMetrics64_unfold.
Qed.

(** A finite non-zero value times a value that is not [NaN] is not
    [NaN]. *)
Lemma SFmul_finite_signed (sx t : bool) (mx : positive) (ex : Z) (y : spec_float) :
  signed t y -> signed (xorb sx t) (SFmul prec emax (S754_finite sx mx ex) y).
Proof.
  destruct y as [sy | sy | | sy my ey]; cbn; intro H; try contradiction;
    subst; try reflexivity.
  apply binary_round_aux_signed. lia.
Qed.

Lemma positive_finite_sf (x : float) :
  is_finite x = true -> (0 <? x)%float = true ->
  exists m e, Prim2SF x = S754_finite false m e.
Proof.
  intros F P. apply is_finite_sf in F. apply ltb_0_iff in P.
  destruct (Prim2SF x) as [s | [] | | [] m e]; try contradiction.
  now exists m, e.
Qed.

(** The product of a positive finite number and a positive finite
    percentage over 100 is positive or, by underflow, zero. *)
Lemma pae_signed (pans e : float) :
  is_finite pans = true -> is_finite e = true ->
  (0 <? pans)%float = true -> (0 <? e)%float = true ->
  signed false (Prim2SF (pans * (e / 100))%float).
Proof.
  intros Fp Fe Pp Pe.
  destruct (positive_finite_sf pans Fp Pp) as (mp & ep & Ep).
  destruct (positive_finite_sf e Fe Pe) as (me & ee & Ee).
  destruct Prim2SF_100 as (m & x & E100).
  rewrite mul_spec, div_spec, Ep. unfold SF64mul, SF64div.
  destruct (SFdiv_finite_finite (Prim2SF e) (Prim2SF 100) false m x
              (is_finite_sf e Fe) E100) as (s & S & U).
  rewrite (U false) in S by (rewrite Ee; reflexivity).
  exact (SFmul_finite_signed false false mp ep _ S).
Qed.

(** Zero or less, finite, over more than zero: zero or less. *)
Lemma div_nonpositive_positive (x y : float) :
  is_finite x = true -> (x <=? 0)%float = true -> (0 <? y)%float = true ->
  (x / y <=? 0)%float = true.
Proof.
  intros F N P. apply is_finite_sf in F. apply leb_0_iff in N.
  apply ltb_0_iff in P. apply leb_0_iff. rewrite div_spec. unfold SF64div.
  destruct (Prim2SF x) as [sx | sx | | [] mx ex]; try contradiction;
    destruct (Prim2SF y) as [sy | [] | | [] my ey]; try contradiction;
    try exact I.
  destruct (SFdiv_finite_finite (S754_finite true mx ex) (S754_finite false my ey)
              false my ey Logic.I eq_refl) as (s & S & U).
  rewrite (U true eq_refl) in S.
  destruct (SFdiv prec emax _ _) as [t | t | | t m e]; cbn in S;
    try contradiction; subst; exact I.
Qed.

(** A zero over more than zero is a zero. *)
Lemma div_zero_positive (x y : float) :
  (x =? 0)%float = true -> (0 <? y)%float = true -> (x / y =? 0)%float = true.
Proof.
  intros Z P. apply eqb_0_iff in Z. apply ltb_0_iff in P. apply eqb_0_iff.
  rewrite div_spec. unfold SF64div.
  destruct (Prim2SF x) as [sx | sx | | sx mx ex]; try contradiction;
    destruct (Prim2SF y) as [sy | [] | | [] my ey]; try contradiction;
    exact I.
Qed.

Lemma eqb_0_not_positive (x : float) :
  (x =? 0)%float = true -> (0 <? x)%float = false.
Proof.
  intro Z. apply eqb_0_iff in Z.
  destruct (0 <? x)%float eqn:E; [| reflexivity].
  apply ltb_0_iff in E. destruct (Prim2SF x) as [s | [] | | [] m e]; contradiction.
Qed.

Lemma getBenchmarkStatus64_present (v : float) (b : B64.benchmark) (type : string) :
  text (B64.App.getBenchmarkStatus (Some v) b type) <> "N/A".
Proof.
  unfold B64.App.getBenchmarkStatus.
  repeat match goal with
         | |- context [if ?c then _ else _] => destruct c
         end; cbn; discriminate.
Qed.

(** ** The metrics of four finite inputs, in binary64 *)

Section Finite64.

Variable st : B64.AppState.

Local Abbreviation tic := (B64.parseFloat (B64.investmentCost st)).
Local Abbreviation pans := (B64.parseFloat (B64.annualNetSales st)).
Local Abbreviation e := (B64.parseFloat (B64.ebitdaPercentage st)).
Local Abbreviation arc := (B64.parseFloat (B64.annualRentCam st)).
Local Abbreviation pae := (pans * (e / 100))%float.
Local Abbreviation r := (B64.exec B64.calculateMetrics st).

Hypothesis finite_tic : is_finite tic = true.
Hypothesis finite_pans : is_finite pans = true.
Hypothesis finite_e : is_finite e = true.
Hypothesis finite_arc : is_finite arc = true.

(** Finite inputs open the gate. *)
Lemma calculateMetrics64_finite :
  r = B64.mkAppState (B64.investmentCost st) (B64.annualNetSales st)
        (B64.ebitdaPercentage st) (B64.annualRentCam st)
        (if (0 <? tic)%float then Some (pans / tic)%float else None)
        (if (0 <? pae)%float then Some (tic / pae)%float else None)
        (if (0 <? tic)%float then Some (pae / tic * 100)%float else None)
        (if (0 <? pans)%float then Some (arc / pans * 100)%float else None).
Proof.
  rewrite calculateMetrics64_unfold; cbv zeta.
  rewrite (is_finite_not_nan _ finite_tic), (is_finite_not_nan _ finite_pans),
    (is_nan_div_100 _ finite_e), (is_finite_not_nan _ finite_arc).
  reflexivity.
Qed.

(** C1. When the four input strings parse to finite numbers, the callback
    stores, computed in binary64 as the code computes them: the
    sales-to-investment ratio [annualNetSales / investmentCost] when the
    investment cost is positive; the payback period
    [investmentCost / projectedAnnualEbitda] when the projected annual EBITDA
    [annualNetSales * (ebitdaPercentage / 100)] is positive; the ROI
    [(projectedAnnualEbitda / investmentCost) * 100] when the investment cost
    is positive; the rent factor [(annualRentCam / annualNetSales) * 100] when
    the net sales are positive; and [null] for a metric whose own guard fails.
    Each metric depends on its own guard only. *)
Theorem calculateMetrics_formulas :
  ((0 <? tic)%float = true ->
   B64.salesToInvestmentRatio r = Some (pans / tic)%float) /\
  ((0 <? tic)%float = false -> B64.salesToInvestmentRatio r = None) /\
  ((0 <? pae)%float = true -> B64.paybackPeriod r = Some (tic / pae)%float) /\
  ((0 <? pae)%float = false -> B64.paybackPeriod r = None) /\
  ((0 <? tic)%float = true -> B64.roi r = Some (pae / tic * 100)%float) /\
  ((0 <? tic)%float = false -> B64.roi r = None) /\
  ((0 <? pans)%float = true ->
   B64.rentFactor r = Some (arc / pans * 100)%float) /\
  ((0 <? pans)%float = false -> B64.rentFactor r = None).
Proof.
  rewrite calculateMetrics64_finite.
  cbn [B64.salesToInvestmentRatio B64.paybackPeriod B64.roi B64.rentFactor].
  repeat split; intros ->; reflexivity.
Qed.

(** C5, amended. When the four inputs parse to finite numbers, the investment
    cost to 0 and the other three to positive numbers, the sales-to-investment
    ratio and the ROI are [null] and the rent factor is stored; the payback
    period is stored too, with value 0, because its guard is on the projected
    annual EBITDA, not on the investment cost; it is [null] only when that
    product of positive numbers underflows to 0 in binary64. *)
Theorem zero_investment_metrics :
  (tic =? 0)%float = true -> (0 <? pans)%float = true ->
  (0 <? e)%float = true -> (0 <? arc)%float = true ->
  B64.salesToInvestmentRatio r = None /\
  B64.roi r = None /\
  B64.rentFactor r = Some (arc / pans * 100)%float /\
  ((0 <? pae)%float = true ->
   exists p, B64.paybackPeriod r = Some p /\ (p =? 0)%float = true) /\
  ((0 <? pae)%float = false ->
   B64.paybackPeriod r = None /\ (pae =? 0)%float = true).
Proof.
  intros Z Ps Pe Pa. rewrite calculateMetrics64_finite.
  cbn [B64.salesToInvestmentRatio B64.paybackPeriod B64.roi B64.rentFactor].
  rewrite (eqb_0_not_positive _ Z), Ps.
  split; [reflexivity |]. split; [reflexivity |]. split; [reflexivity |].
  split; intro G; rewrite G.
  - exists (tic / pae)%float. split; [reflexivity |].
    now apply div_zero_positive.
  - split; [reflexivity |].
    destruct (signed_false_cases _ (pae_signed pans e finite_pans finite_e Ps Pe))
      as [K | K]; [congruence | exact K].
Qed.

(** C8, amended. When the four inputs parse to finite numbers, a zero or
    negative investment cost makes the sales-to-investment ratio and the ROI
    [null], zero or negative net sales make the rent factor [null], and a zero
    or negative projected annual EBITDA makes the payback period [null]: a
    stored metric is a quotient by a number greater than zero, so no division
    by zero is performed.  The numerator is not tested, so a stored metric can
    be negative. *)
Theorem guards_protect_denominators :
  ((tic <=? 0)%float = true ->
   B64.salesToInvestmentRatio r = None /\ B64.roi r = None) /\
  ((pans <=? 0)%float = true -> B64.rentFactor r = None) /\
  ((pae <=? 0)%float = true -> B64.paybackPeriod r = None) /\
  (forall v, B64.salesToInvestmentRatio r = Some v ->
             (0 <? tic)%float = true /\ v = (pans / tic)%float) /\
  (forall v, B64.paybackPeriod r = Some v ->
             (0 <? pae)%float = true /\ v = (tic / pae)%float) /\
  (forall v, B64.roi r = Some v ->
             (0 <? tic)%float = true /\ v = (pae / tic * 100)%float) /\
  (forall v, B64.rentFactor r = Some v ->
             (0 <? pans)%float = true /\ v = (arc / pans * 100)%float).
Proof.
  rewrite calculateMetrics64_finite.
  cbn [B64.salesToInvestmentRatio B64.paybackPeriod B64.roi B64.rentFactor].
  split; [intro H; now rewrite (leb_0_not_positive _ H) |].
  split; [intro H; now rewrite (leb_0_not_positive _ H) |].
  split; [intro H; now rewrite (leb_0_not_positive _ H) |].
  repeat split;
    match goal with
    | H : (if ?c then _ else _) = Some _ |- _ =>
        destruct c; [| discriminate H];
        first [reflexivity | now injection H]
    end.
Qed.

(** C9, amended. When the four inputs parse to strictly positive finite
    numbers, the sales-to-investment ratio, the ROI and the rent factor are
    stored, so the two of them that are displayed never show "N/A"; the
    payback period is stored when the projected annual EBITDA computed in
    binary64 is positive, and it is [null] in the one other case, when that
    product of positive numbers underflows to 0. *)
Theorem positive_inputs_metrics :
  (0 <? tic)%float = true -> (0 <? pans)%float = true ->
  (0 <? e)%float = true -> (0 <? arc)%float = true ->
  B64.salesToInvestmentRatio r = Some (pans / tic)%float /\
  B64.roi r = Some (pae / tic * 100)%float /\
  B64.rentFactor r = Some (arc / pans * 100)%float /\
  ((0 <? pae)%float = true -> B64.paybackPeriod r = Some (tic / pae)%float) /\
  ((0 <? pae)%float = false ->
   B64.paybackPeriod r = None /\ (pae =? 0)%float = true) /\
  text (B64.App.getBenchmarkStatus (B64.salesToInvestmentRatio r)
          B64.benchmarks.salesToInvestmentRatio "salesToInvestmentRatio")
  <> "N/A" /\
  text (B64.App.getBenchmarkStatus (B64.rentFactor r)
          B64.benchmarks.rentFactor "rentFactor") <> "N/A".
Proof.
  intros Pt Ps Pe Pa. rewrite calculateMetrics64_finite.
  cbn [B64.salesToInvestmentRatio B64.paybackPeriod B64.roi B64.rentFactor].
  rewrite Pt, Ps.
  split; [reflexivity |]. split; [reflexivity |]. split; [reflexivity |].
  split; [intros ->; reflexivity |].
  split; [| split; apply getBenchmarkStatus64_present].
  intro G. rewrite G. split; [reflexivity |].
  destruct (signed_false_cases _ (pae_signed pans e finite_pans finite_e Ps Pe))
    as [K | K]; [congruence | exact K].
Qed.

(** X6. A zero or negative finite investment cost with a positive projected
    annual EBITDA (as the code computes it) stores a payback period that is
    zero or negative, and both copies of the classifier label it
    "Excellent". *)
Theorem nonpositive_investment_payback_excellent :
  (tic <=? 0)%float = true -> (0 <? pae)%float = true ->
  exists v : float,
    B64.paybackPeriod r = Some v /\ (v <=? 0)%float = true /\
    forall classify, In classify B64.classifiers ->
      classified (classify (B64.paybackPeriod r) B64.benchmarks.paybackPeriod
                    "paybackPeriod") "Excellent" good.
Proof.
  intros Nt Pp. rewrite calculateMetrics64_finite.
  cbn [B64.paybackPeriod]. rewrite Pp.
  pose proof (div_nonpositive_positive _ _ finite_tic Nt Pp) as Nv.
  exists (tic / pae)%float. split; [reflexivity | split; [exact Nv |]].
  intros classify [<- | [<- | []]];
    unfold B64.App.getBenchmarkStatus, B64.Part000.getBenchmarkStatus;
    cbn [String.eqb Ascii.eqb Bool.eqb B64.Benchmark.ideal
           B64.benchmarks.paybackPeriod];
    rewrite (leb_0_leb_5 _ Nv); split; reflexivity.
Qed.

End Finite64.

Lemma calculateMetrics_formulas_witness :
  (is_finite (B64.parseFloat (B64.investmentCost sample64)) = true /\
   is_finite (B64.parseFloat (B64.annualNetSales sample64)) = true /\
   is_finite (B64.parseFloat (B64.ebitdaPercentage sample64)) = true /\
   is_finite (B64.parseFloat (B64.annualRentCam sample64)) = true) /\
  B64.salesToInvestmentRatio (B64.exec B64.calculateMetrics sample64)
  = Some (1500000 / 500000)%float /\
  B64.paybackPeriod (B64.exec B64.calculateMetrics sample64)
  = Some (500000 / (1500000 * (12.5 / 100)))%float /\
  B64.roi (B64.exec B64.calculateMetrics sample64)
  = Some (1500000 * (12.5 / 100) / 500000 * 100)%float /\
  B64.rentFactor (B64.exec B64.calculateMetrics sample64)
  = Some (120000 / 1500000 * 100)%float.
Proof.
  split; [repeat split |].
  destruct (calculateMetrics_formulas sample64 eq_refl eq_refl eq_refl eq_refl)
    as (H1 & _ & H2 & _ & H3 & _ & H4 & _).
  split; [| split; [| split]];
    [apply H1 | apply H2 | apply H3 | apply H4]; reflexivity.
Defined.

(** The spec's worked example, as the code computes it. *)
Example sample64_metrics :
  B64.metricValues (B64.exec B64.calculateMetrics sample64)
  = [Some 3%float; Some 0x1.5555555555555p+1%float; Some 37.5%float;
     Some 8%float].
Proof. reflexivity. Qed.

(** C5, as the spec states it, fails on [zeroInvestment64]: the payback
    period is stored (as 0), not [null]. *)
Lemma zero_investment_payback_not_absent :
  (B64.parseFloat (B64.investmentCost zeroInvestment64) = 0%float /\
   B64.parseFloat (B64.annualNetSales zeroInvestment64) = 1500000%float /\
   B64.parseFloat (B64.ebitdaPercentage zeroInvestment64) = 12.5%float /\
   B64.parseFloat (B64.annualRentCam zeroInvestment64) = 120000%float) /\
  B64.paybackPeriod (B64.exec B64.calculateMetrics zeroInvestment64)
  = Some 0%float /\
  ~ (B64.salesToInvestmentRatio (B64.exec B64.calculateMetrics zeroInvestment64)
     = None /\
     B64.roi (B64.exec B64.calculateMetrics zeroInvestment64) = None /\
     B64.paybackPeriod (B64.exec B64.calculateMetrics zeroInvestment64) = None /\
     B64.rentFactor (B64.exec B64.calculateMetrics zeroInvestment64) <> None).
Proof.
  split; [repeat split |]. split; [reflexivity |].
  intros (_ & _ & H & _). vm_compute in H. discriminate H.
Qed.

Lemma zero_investment_metrics_witness :
  (is_finite (B64.parseFloat (B64.investmentCost zeroInvestment64)) = true /\
   (B64.parseFloat (B64.investmentCost zeroInvestment64) =? 0)%float = true /\
   (0 <? B64.parseFloat (B64.annualNetSales zeroInvestment64))%float = true) /\
  B64.salesToInvestmentRatio (B64.exec B64.calculateMetrics zeroInvestment64)
  = None /\
  B64.roi (B64.exec B64.calculateMetrics zeroInvestment64) = None /\
  B64.rentFactor (B64.exec B64.calculateMetrics zeroInvestment64)
  = Some (120000 / 1500000 * 100)%float.
Proof.
  split; [repeat split |].
  destruct (zero_investment_metrics zeroInvestment64
              eq_refl eq_refl eq_refl eq_refl eq_refl eq_refl eq_refl eq_refl)
    as (H1 & H2 & H3 & _).
  split; [exact H1 | split; [exact H2 | exact H3]].
Defined.

(** C8, as the spec states it, fails on [negativeInvestment64]: the payback
    period is stored with a negative value. *)
Lemma negative_investment_payback_negative :
  (B64.parseFloat (B64.investmentCost negativeInvestment64) = (-500000)%float /\
   B64.parseFloat (B64.annualNetSales negativeInvestment64) = 1500000%float /\
   B64.parseFloat (B64.ebitdaPercentage negativeInvestment64) = 12.5%float /\
   B64.parseFloat (B64.annualRentCam negativeInvestment64) = 120000%float) /\
  ~ (forall v : float,
       In (Some v)
          (B64.metricValues (B64.exec B64.calculateMetrics negativeInvestment64)) ->
       (v <? 0)%float = false).
Proof.
  split; [repeat split |].
  intro H.
  assert (K : (-500000 / (1500000 * (12.5 / 100)) <? 0)%float = false).
  { apply H. right; left. reflexivity. }
  vm_compute in K. discriminate K.
Qed.

Lemma guards_protect_denominators_witness :
  (is_finite (B64.parseFloat (B64.investmentCost negativeInvestment64)) = true /\
   (B64.parseFloat (B64.investmentCost negativeInvestment64) <=? 0)%float = true) /\
  B64.salesToInvestmentRatio (B64.exec B64.calculateMetrics negativeInvestment64)
  = None /\
  B64.roi (B64.exec B64.calculateMetrics negativeInvestment64) = None.
Proof.
  split; [repeat split |].
  destruct (guards_protect_denominators negativeInvestment64
              eq_refl eq_refl eq_refl eq_refl) as (H1 & _).
  apply H1. reflexivity.
Defined.

(** C9, as the spec states it, fails on [underflow64]: the four inputs parse
    to strictly positive finite numbers and the payback period is [null]. *)
Lemma positive_inputs_payback_absent :
  (forall f : App.field,
     is_finite (B64.parseFloat (B64.inputOf f underflow64)) = true /\
     (0 <? B64.parseFloat (B64.inputOf f underflow64))%float = true) /\
  B64.paybackPeriod (B64.exec B64.calculateMetrics underflow64) = None /\
  ~ (forall v : option float,
       In v (B64.metricValues (B64.exec B64.calculateMetrics underflow64)) ->
       v <> None).
Proof.
  split; [intros []; split; reflexivity |]. split; [reflexivity |].
  intro H. apply (H None); [right; left |]; reflexivity.
Qed.

Lemma positive_inputs_metrics_witness :
  (is_finite (B64.parseFloat (B64.investmentCost underflow64)) = true /\
   (0 <? B64.parseFloat (B64.investmentCost underflow64))%float = true /\
   (0 <? B64.parseFloat (B64.annualNetSales underflow64))%float = true /\
   (0 <? B64.parseFloat (B64.ebitdaPercentage underflow64))%float = true /\
   (0 <? B64.parseFloat (B64.annualRentCam underflow64))%float = true) /\
  B64.salesToInvestmentRatio (B64.exec B64.calculateMetrics underflow64) <> None /\
  B64.paybackPeriod (B64.exec B64.calculateMetrics underflow64) = None.
Proof.
  split; [repeat split |].
  destruct (positive_inputs_metrics underflow64
              eq_refl eq_refl eq_refl eq_refl eq_refl eq_refl eq_refl eq_refl)
    as (H1 & _ & _ & _ & H5 & _).
  split; [rewrite H1; discriminate | apply H5; reflexivity].
Defined.

Lemma nonpositive_investment_payback_excellent_witness :
  (is_finite (B64.parseFloat (B64.investmentCost negativeInvestment64)) = true /\
   (B64.parseFloat (B64.investmentCost negativeInvestment64) <=? 0)%float = true) /\
  exists v : float,
    B64.paybackPeriod (B64.exec B64.calculateMetrics negativeInvestment64)
    = Some v /\ (v <=? 0)%float = true /\
    forall classify, In classify B64.classifiers ->
      classified
        (classify
           (B64.paybackPeriod (B64.exec B64.calculateMetrics negativeInvestment64))
           B64.benchmarks.paybackPeriod "paybackPeriod") "Excellent" good.
Proof.
  split; [repeat split |].
  apply (nonpositive_investment_payback_excellent negativeInvestment64);
    reflexivity.
Defined.

(** ** The component of src/src/App.jsx, in binary64 *)

Lemma exec64_seq {A B : Type} (c : B64.Effect A) (k : B64.Effect B)
    (st : B64.AppState) :
  B64.exec (B64.bind c (fun _ => k)) st = B64.exec k (B64.exec c st).
Proof. unfold B64.exec, B64.bind. now destruct (c st). Qed.

Lemma onChange64_filtered (f : App.field) (raw : string) (st : B64.AppState) :
  App.decimalPattern raw = true -> filtered64 st ->
  filtered64 (B64.exec (B64.App.onChange f raw) st).
Proof.
  intros R F g. specialize (F g). destruct f, g; assumption.
Qed.

Lemma reachable64_invariant (st : B64.AppState) :
  B64.App.reachable st ->
  filtered64 st /\ B64.exec B64.calculateMetrics st = st.
Proof.
  induction 1 as [| st f incoming _ [IHf IHm]].
  - split; [now intros [] | apply calculateMetrics64_idempotent].
  - unfold B64.App.change.
    destruct (App.handleChange (App.unit_of f) incoming) as [raw |] eqn:E.
    + rewrite exec64_seq. split; [| apply calculateMetrics64_idempotent].
      intro g. rewrite calculateMetrics64_inputs.
      apply onChange64_filtered; [| exact IHf].
      apply (handleChange_decimalPattern (App.unit_of f) incoming raw); [| exact E].
      destruct f; [left | left | right | left]; reflexivity.
    + split; assumption.
Qed.

Lemma typedSample64_reachable : B64.App.reachable typedSample64.
Proof. unfold typedSample64. repeat constructor. Qed.

(** X11. On an input with unit "$" or "%", a text that [handleChange] has
    passed on is empty, or the builtin reads from it a number that is neither
    [NaN] nor negative (for a very long text it is [Infinity]); it reads [NaN]
    exactly when the text is empty. *)
Theorem handleChange_then_parseFloat (unit incoming raw : string) :
  filteredUnit unit ->
  App.handleChange unit incoming = Some raw ->
  (raw = "" \/
   (is_nan (B64.parseFloat raw) = false /\
    (B64.parseFloat raw <? 0)%float = false)) /\
  (is_nan (B64.parseFloat raw) = true <-> raw = "").
Proof.
  intros U H. destruct (handleChange_decimalPattern unit incoming raw U H)
    as [_ P].
  destruct (decimalPattern_parse64 raw P) as [-> | S].
  - split; [now left | split; reflexivity].
  - assert (N : is_nan (B64.parseFloat raw) = false).
    { apply is_nan_false. intro K. now rewrite K in S. }
    split.
    + right. split; [exact N |]. apply unsigned64_not_negative. now right.
    + rewrite N. split; [discriminate |]. intros ->. discriminate N.
Qed.

Lemma handleChange_then_parseFloat_witness :
  filteredUnit "$" /\
  App.handleChange "$" "500,000" = Some "500000" /\
  (is_nan (B64.parseFloat "500000") = true <-> "500000" = "").
Proof.
  split; [now left |]. split; [reflexivity |].
  apply (handleChange_then_parseFloat "$" "500,000" "500000");
    [now left | reflexivity].
Defined.

(** X14. In every state the component of src/src/App.jsx reaches, the stored
    metrics are those [calculateMetrics] computes from the current inputs,
    and every input is a text the filter of [handleChange] accepts. *)
Theorem reachable_metrics_in_sync (st : B64.AppState) :
  B64.App.reachable st ->
  B64.exec B64.calculateMetrics st = st /\
  forall f : App.field, App.decimalPattern (B64.inputOf f st) = true.
Proof.
  intro R. destruct (reachable64_invariant st R) as [F M]. now split.
Qed.

Lemma reachable_metrics_in_sync_witness :
  B64.App.reachable typedSample64 /\
  B64.exec B64.calculateMetrics typedSample64 = typedSample64 /\
  B64.metricValues typedSample64
  = B64.metricValues (B64.exec B64.calculateMetrics sample64).
Proof.
  split; [exact typedSample64_reachable |].
  split; [| reflexivity].
  apply (reachable_metrics_in_sync typedSample64). exact typedSample64_reachable.
Defined.

(** X15. In every state the component of src/src/App.jsx reaches, no stored
    metric is negative: each is zero, positive, [Infinity] or [NaN]. *)
Theorem reachable_metrics_not_negative (st : B64.AppState) (v : float) :
  B64.App.reachable st -> In (Some v) (B64.metricValues st) ->
  (v <? 0)%float = false.
Proof.
  intros R Hin. destruct (reachable64_invariant st R) as [F M].
  rewrite <- M in Hin. rewrite calculateMetrics64_unfold in Hin.
  cbv zeta in Hin.
  assert (U : forall f, unsigned64 (B64.parseFloat (B64.inputOf f st))).
  { intro f. destruct (decimalPattern_parse64 _ (F f)) as [-> | S];
      [left; reflexivity | now right]. }
  pose proof (U App.InvestmentCost) as Ut.
  pose proof (U App.AnnualNetSales) as Up.
  pose proof (U App.EbitdaPercentage) as Ue.
  pose proof (U App.AnnualRentCam) as Ua.
  cbn [B64.inputOf] in Ut, Up, Ue, Ua.
  pose proof (unsigned64_div _ _ Ue unsigned64_100) as Upct.
  pose proof (unsigned64_mul _ _ Up Upct) as Upae.
  apply unsigned64_not_negative.
  destruct (_ || _); cbn in Hin;
    [destruct Hin as [K | [K | [K | [K | []]]]]; discriminate K |].
  repeat match type of Hin with
         | _ \/ _ => destruct Hin as [Hin | Hin]
         end;
    try contradiction;
    match type of Hin with
    | (if ?c then _ else _) = Some _ => destruct c; [| discriminate Hin]
    end;
    injection Hin as <-;
    repeat first [apply unsigned64_mul | apply unsigned64_div
                 | exact unsigned64_100 | assumption].
Qed.

Lemma reachable_metrics_not_negative_witness :
  B64.App.reachable typedSample64 /\
  In (Some 3%float) (B64.metricValues typedSample64) /\
  (3 <? 0)%float = false.
Proof.
  split; [exact typedSample64_reachable |].
  split; [left; reflexivity |].
  apply (reachable_metrics_not_negative typedSample64 3%float).
  - exact typedSample64_reachable.
  - left; reflexivity.
Defined.
